(** * wordpress-docker-dind: the instance manager and the workspace loaders

    A shallow embedding of [images/docker-dind-wp/instance-manager.sh]
    (the port allocator, the network ordinal, the workspace config store
    and the create / start / stop / remove / list / clone / info
    commands) and of the two configuration loaders of
    [cli-tool/bin/wp-dind.js].

    The shell script works on the file system of the DinD host and talks
    to the container engine.  Both are made explicit as a [State]; what a
    run reads from outside (random passwords, the clock, the answer typed
    at the confirmation prompt, whether the engine accepts a
    [docker network create]) is an [Env] given to each invocation.

    Instance directories are kept under the name the command line gave
    them.  This is what the script does with a name that is one plain
    directory name; a name with a slash, a dot name, or a name the
    shell does not read as one word makes the script follow the path or
    fail in [source], which the model does not trace.  [plain_name] and
    [well_formed] below state the names and states on which script and
    model agree, and the statements that need them say so. *)

From stdpp Require Import gmap strings list fin_maps pretty.

Local Open Scope Z_scope.

(** ** Shell integers *)

Module Shell.

(** bash evaluates [$(( ))] and the operands of [[ -ge ]] as signed
    64-bit integers. *)
Definition INT64_MIN : Z := - 2 ^ 63.
Definition INT64_MAX : Z := 2 ^ 63 - 1.

Definition wrap64 (z : Z) : Z := (z + 2 ^ 63) `mod` 2 ^ 64 - 2 ^ 63.

Definition is_int64 (z : Z) : bool := bool_decide (INT64_MIN ≤ z ≤ INT64_MAX).

(** [[ "$a" -ge "$b" ]]: an operand outside the 64-bit range makes the
    test fail with "integer expression expected", which an [if] takes as
    false. *)
Definition test_ge (a b : Z) : bool :=
  is_int64 a && is_int64 b && bool_decide (b ≤ a).

(** [${x:-d}] *)
Definition default_to (d x : string) : string :=
  if decide (x = "") then d else x.

End Shell.

(** ** Data model *)

(** One value of [.instances] in the workspace config, as
    [save_instance_to_config] writes it.  [port] is what
    [jq -r '.value.port // empty'] prints: [None] when the field is
    absent, null or false. *)
Record InstanceStack := {
  stack_webserver : string;
  stack_phpVersion : string;
  stack_mysqlVersion : string
}.

Record InstanceEntry := {
  entry_port : option Z;
  entry_stack : InstanceStack;
  entry_createdAt : string;
  entry_status : string
}.

(** The document [/wordpress-instances/.workspace-config.json].  The
    script touches [.instances] only; [doc_other] stands for every other
    member (workspaceName, stack, imageVersions, ...).  [.instances] may
    be missing ([wp-dind init] writes none): [None]. *)
Record WorkspaceDoc := {
  doc_other : string;
  doc_instances : option (gmap string InstanceEntry)
}.

(** The file [.instance-info] of an instance directory. *)
Record InstanceInfo := {
  NAME : string;
  MYSQL_VERSION : string;
  PHP_VERSION : string;
  WEBSERVER : string;
  NETWORK : string;
  PORT : Z;
  CREATED : string;
  DB_PASSWORD : string;
  DB_ROOT_PASSWORD : string
}.

(** The rendered [docker-compose.yml] of an instance. *)
Record Compose := {
  mysql_image : string;
  mysql_container : string;
  MYSQL_ROOT_PASSWORD : string;
  MYSQL_DATABASE : string;
  MYSQL_USER : string;
  MYSQL_PASSWORD : string;
  php_image : string;
  php_container : string;
  web_service : string;
  web_image : string;
  web_container : string;
  published_port : Z;
  instance_network : string
}.

(** [data/wordpress]: a directory of files, or (after a symlink clone) a
    link to the [data/wordpress] of another instance. *)
Inductive WordpressData :=
  | Files (tree : gmap string string)
  | Symlink (source_instance : string).

(** One directory [/wordpress-instances/<name>]. *)
Record InstanceDir := {
  data_wordpress : WordpressData;
  data_mysql : list string;
  config_dirs : list string;
  log_links : list string;
  compose_file : option Compose;
  instance_info : option InstanceInfo
}.

(** The DinD host as the manager sees it.  [instance_dirs] holds the
    directories directly under [INSTANCES_DIR], by name; the file
    [.workspace-config.json] next to them is [workspace_config]. *)
Record State := {
  workspace_config : option WorkspaceDoc;
  instance_dirs : gmap string InstanceDir;
  host_logs : gset string;
  networks : gset string;
  running : list string;
  tmp_clone_db : option (list string)
}.

(** What one invocation reads from outside the state.  [confirm] is the
    line typed at the prompt of [remove]. *)
Record Env := {
  DEFAULT_MYSQL_VERSION : string;
  DEFAULT_PHP_VERSION : string;
  DEFAULT_WEBSERVER : string;
  DEFAULT_DB_NAME : string;
  DEFAULT_DB_USER : string;
  rand_db_password : string;
  rand_db_root_password : string;
  date_iseconds : string;
  jq_now : string;
  network_create_ok : bool;
  shared_create_ok : bool;
  confirm : string
}.

(** Exit status and the state the run leaves behind. *)
Definition Run : Type := Z * State.

Definition INSTANCE_PORT_START : Z := 8001.
Definition NETWORK_PREFIX : string := "wp-network".

(** ** Port allocator and workspace config store *)

Definition doc_entries (doc : WorkspaceDoc) : list (string * InstanceEntry) :=
  match doc_instances doc with
  | Some m => map_to_list m
  | None => []
  end.

(** [jq -r '.instances | to_entries[] | .value.port // empty'] *)
Definition assigned_ports (doc : WorkspaceDoc) : list Z :=
  omap (λ kv, entry_port kv.2) (doc_entries doc).

(** The body of the [for port in $ports] loop. *)
Definition scan_port (max_port port : Z) : Z :=
  if Shell.test_ge port max_port then Shell.wrap64 (port + 1) else max_port.

Definition scan_ports (ports : list Z) : Z :=
  foldl scan_port INSTANCE_PORT_START ports.

Definition get_next_port (cfg : option WorkspaceDoc) : Z :=
  match cfg with
  | Some doc => scan_ports (assigned_ports doc)
  | None => INSTANCE_PORT_START
  end.

Definition new_entry (env : Env) (port : Z) (webserver php mysql : string)
    : InstanceEntry :=
  {| entry_port := Some port;
     entry_stack := {| stack_webserver := webserver;
                       stack_phpVersion := php;
                       stack_mysqlVersion := mysql |};
     entry_createdAt := jq_now env;
     entry_status := "created" |}.

(** [.instances[$name] = {...}]; returns 0 and writes nothing when the
    file is missing. *)
Definition save_instance_to_config (env : Env) (name : string) (port : Z)
    (webserver php mysql : string) (cfg : option WorkspaceDoc)
    : Z * option WorkspaceDoc :=
  match cfg with
  | None => (0, None)
  | Some doc =>
      (0, Some {| doc_other := doc_other doc;
                  doc_instances :=
                    Some (<[name := new_entry env port webserver php mysql]>
                            (default ∅ (doc_instances doc))) |})
  end.

(** [del(.instances[$name])] *)
Definition remove_instance_from_config (name : string)
    (cfg : option WorkspaceDoc) : Z * option WorkspaceDoc :=
  match cfg with
  | None => (0, None)
  | Some doc =>
      (0, Some {| doc_other := doc_other doc;
                  doc_instances := delete name <$> doc_instances doc |})
  end.

(** ** Instance lifecycle *)

(** The [case] tables mapping version codes to image versions and to the
    major.minor used in directory names; unknown codes fall through to
    the newest. *)
Definition mysql_image_version (v : string) : string :=
  if decide (v = "56") then "5.6.51"
  else if decide (v = "57") then "5.7.44"
  else "8.0.40".

Definition php_image_version (v : string) : string :=
  if decide (v = "74") then "7.4.33"
  else if decide (v = "80") then "8.0.30"
  else if decide (v = "81") then "8.1.31"
  else if decide (v = "82") then "8.2.26"
  else "8.3.14".

Definition mysql_full_version (v : string) : string :=
  if decide (v = "56") then "5.6"
  else if decide (v = "57") then "5.7"
  else "8.0".

Definition php_full_version (v : string) : string :=
  if decide (v = "74") then "7.4"
  else if decide (v = "80") then "8.0"
  else if decide (v = "81") then "8.1"
  else if decide (v = "82") then "8.2"
  else "8.3".

Definition webserver_version (webserver : string) : string :=
  if decide (webserver = "nginx") then "1.27.3" else "2.4.62".

Definition set_config (cfg : option WorkspaceDoc) (st : State) : State :=
  {| workspace_config := cfg; instance_dirs := instance_dirs st;
     host_logs := host_logs st; networks := networks st;
     running := running st; tmp_clone_db := tmp_clone_db st |}.

Definition set_dirs (dirs : gmap string InstanceDir) (st : State) : State :=
  {| workspace_config := workspace_config st; instance_dirs := dirs;
     host_logs := host_logs st; networks := networks st;
     running := running st; tmp_clone_db := tmp_clone_db st |}.

Definition set_host_logs (logs : gset string) (st : State) : State :=
  {| workspace_config := workspace_config st; instance_dirs := instance_dirs st;
     host_logs := logs; networks := networks st;
     running := running st; tmp_clone_db := tmp_clone_db st |}.

Definition set_networks (nets : gset string) (st : State) : State :=
  {| workspace_config := workspace_config st; instance_dirs := instance_dirs st;
     host_logs := host_logs st; networks := nets;
     running := running st; tmp_clone_db := tmp_clone_db st |}.

Definition set_running (names : list string) (st : State) : State :=
  {| workspace_config := workspace_config st; instance_dirs := instance_dirs st;
     host_logs := host_logs st; networks := networks st;
     running := names; tmp_clone_db := tmp_clone_db st |}.

Definition set_tmp (tmp : option (list string)) (st : State) : State :=
  {| workspace_config := workspace_config st; instance_dirs := instance_dirs st;
     host_logs := host_logs st; networks := networks st;
     running := running st; tmp_clone_db := tmp |}.

(** The directory tree right after the [mkdir -p] and [ln -sf] block. *)
Definition fresh_dir (php_full mysql_full webserver web_version : string)
    : InstanceDir :=
  let subdirs := ["php-" +:+ php_full; "mysql-" +:+ mysql_full;
                  webserver +:+ "-" +:+ web_version] in
  {| data_wordpress := Files ∅;
     data_mysql := [];
     config_dirs := subdirs;
     log_links := subdirs;
     compose_file := None;
     instance_info := None |}.

(** [find "$INSTANCES_DIR" -maxdepth 1 -type d | wc -l]: the directory
    itself and each directory directly below it, which are the keys of
    the state. *)
Definition instance_id (dirs : gmap string InstanceDir) : nat := S (size dirs).

Definition network_name (id : nat) : string :=
  NETWORK_PREFIX +:+ "-" +:+ pretty id.

(** [if ! docker network inspect "$n"; then docker network create "$n"; fi]:
    an existing network is kept as it is, a missing one is created, and
    the engine may refuse ([ok = false]), which ends the script. *)
Definition ensure_network (ok : bool) (n : string) (nets : gset string)
    : option (gset string) :=
  if decide (n ∈ nets) then Some nets
  else if ok then Some ({[n]} ∪ nets)
  else None.

Definition render_compose (env : Env) (name mysql_version php_version
    webserver : string) (port : Z) (network : string) : Compose :=
  {| mysql_image := "airoman/wp-dind:mysql-" +:+ mysql_image_version mysql_version;
     mysql_container := name +:+ "-mysql";
     MYSQL_ROOT_PASSWORD := rand_db_root_password env;
     MYSQL_DATABASE := DEFAULT_DB_NAME env;
     MYSQL_USER := DEFAULT_DB_USER env;
     MYSQL_PASSWORD := rand_db_password env;
     php_image := "airoman/wp-dind:php-" +:+ php_image_version php_version;
     php_container := name +:+ "-php";
     web_service := webserver;
     web_image := "airoman/wp-dind:" +:+ webserver +:+ "-"
                    +:+ webserver_version webserver;
     web_container := name +:+ "-" +:+ webserver;
     published_port := port;
     instance_network := network |}.

Definition render_info (env : Env) (name mysql_version php_version
    webserver network : string) (port : Z) : InstanceInfo :=
  {| NAME := name;
     MYSQL_VERSION := mysql_version;
     PHP_VERSION := php_version;
     WEBSERVER := webserver;
     NETWORK := network;
     PORT := port;
     CREATED := date_iseconds env;
     DB_PASSWORD := rand_db_password env;
     DB_ROOT_PASSWORD := rand_db_root_password env |}.

Definition finish_dir (d : InstanceDir) (c : Compose) (i : InstanceInfo)
    : InstanceDir :=
  {| data_wordpress := data_wordpress d;
     data_mysql := data_mysql d;
     config_dirs := config_dirs d;
     log_links := log_links d;
     compose_file := Some c;
     instance_info := Some i |}.

(** [[ -d "${INSTANCES_DIR}/${name}" ]] for a name that is one plain
    directory name; the empty name (an omitted argument) denotes
    [INSTANCES_DIR] itself, which exists.  Other spellings of a path
    ([alpha/], [./alpha], [a/../alpha]) and the name of the config file
    are outside the names the model covers. *)
Definition dir_exists (st : State) (name : string) : bool :=
  bool_decide (name = "") || bool_decide (is_Some (instance_dirs st !! name)).

Definition valid_webserver (webserver : string) : bool :=
  bool_decide (webserver = "nginx") || bool_decide (webserver = "apache").

(** [create_instance "$1" "$2" "$3" "$4"].  The template files copied
    into the config directories are static and are not tracked. *)
Definition create_instance (env : Env) (name a2 a3 a4 : string) (st : State)
    : Run :=
  let mysql_version := Shell.default_to (DEFAULT_MYSQL_VERSION env) a2 in
  let php_version := Shell.default_to (DEFAULT_PHP_VERSION env) a3 in
  let webserver := Shell.default_to (DEFAULT_WEBSERVER env) a4 in
  if dir_exists st name then (1, st)
  else if negb (valid_webserver webserver) then (1, st)
  else
    let php_full := php_full_version php_version in
    let mysql_full := mysql_full_version mysql_version in
    let d := fresh_dir php_full mysql_full webserver
               (webserver_version webserver) in
    let st1 := set_host_logs ({[name]} ∪ host_logs st)
                 (set_dirs (<[name := d]> (instance_dirs st)) st) in
    let instance_port := get_next_port (workspace_config st1) in
    let network := network_name (instance_id (instance_dirs st1)) in
    match ensure_network (network_create_ok env) network (networks st1) with
    | None => (1, st1)
    | Some nets1 =>
        match ensure_network (shared_create_ok env) "wp-shared" nets1 with
        | None => (1, set_networks nets1 st1)
        | Some nets2 =>
            let c := render_compose env name mysql_version php_version
                       webserver instance_port network in
            let i := render_info env name mysql_version php_version
                       webserver network instance_port in
            let st2 := set_dirs (<[name := finish_dir d c i]> (instance_dirs st1))
                         (set_networks nets2 st1) in
            let '(code, cfg) :=
              save_instance_to_config env name instance_port webserver
                php_full mysql_full (workspace_config st2) in
            (code, set_config cfg st2)
        end
    end.

(** The containers [docker-compose] manages for one compose file. *)
Definition compose_containers (c : Compose) : list string :=
  [mysql_container c; php_container c; web_container c].

Definition docker_start (cs : list string) (st : State) : State :=
  set_running (list_union (running st) cs) st.

Definition docker_stop (cs : list string) (st : State) : State :=
  set_running (list_difference (running st) cs) st.

(** [start_instance]: [source .instance-info] and [docker-compose up -d]
    each end the script when their file is missing.  The metadata is
    taken to be a file [source] runs as assignments ([sourceable]
    below), as every file written for plain arguments is. *)
Definition start_instance (name : string) (st : State) : Run :=
  match instance_dirs st !! name with
  | None => (1, st)
  | Some d =>
      match instance_info d, compose_file d with
      | Some _, Some c => (0, docker_start (compose_containers c) st)
      | _, _ => (1, st)
      end
  end.

Definition stop_instance (name : string) (st : State) : Run :=
  match instance_dirs st !! name with
  | None => (1, st)
  | Some d =>
      match compose_file d with
      | Some c => (0, docker_stop (compose_containers c) st)
      | None => (1, st)
      end
  end.

(** [remove_instance]: the answer read at the prompt is [confirm env],
    a complete line that [read] stores as it was typed (no blank at
    either end, no backslash: [plain_answer] below). *)
Definition remove_instance (env : Env) (name : string) (st : State) : Run :=
  match instance_dirs st !! name with
  | None => (1, st)
  | Some d =>
      if decide (confirm env = "yes") then
        match compose_file d with
        | None => (1, st)
        | Some c =>
            let st1 := docker_stop (compose_containers c) st in
            let st2 := set_dirs (delete name (instance_dirs st1)) st1 in
            let '(code, cfg) :=
              remove_instance_from_config name (workspace_config st2) in
            (code, set_config cfg st2)
        end
      else (0, st)
  end.

(** ** Listing and status *)

(** [docker ps --format '{{.Names}}' | grep -q "^${NAME}-"].  The name is
    spliced into the pattern as it is; the model reads it literally,
    which is what grep does for a name without regular-expression
    metacharacters (every name over letters, digits, [_] and [-]). *)
Definition is_running (name : string) (docker_ps : list string) : bool :=
  existsb (String.prefix (name +:+ "-")) docker_ps.

Definition status_of (name : string) (st : State) : string :=
  if is_running name (running st) then "running" else "stopped".

Record ListRow := {
  row_name : string;
  row_mysql : string;
  row_php : string;
  row_webserver : string;
  row_network : string;
  row_status : string
}.

(** One round of the [for instance_dir in "$INSTANCES_DIR"/*] loop: the
    glob skips dot names, and a directory without [.instance-info]
    prints nothing. *)
Definition list_row (st : State) (entry : string * InstanceDir)
    : option ListRow :=
  if String.prefix "." entry.1 then None
  else
    i ← instance_info entry.2;
    Some {| row_name := NAME i;
            row_mysql := MYSQL_VERSION i;
            row_php := PHP_VERSION i;
            row_webserver := WEBSERVER i;
            row_network := NETWORK i;
            row_status := status_of (NAME i) st |}.

(** The table rows [list_instances] prints, for metadata files that
    [source] runs as assignments. *)
Definition list_instances (st : State) : list ListRow :=
  omap (list_row st) (map_to_list (instance_dirs st)).

(** [show_info]: exit status, and the metadata printed together with
    the Running / Stopped line ([true] for Running); again for a
    metadata file that [source] runs as assignments. *)
Definition show_info (name : string) (st : State)
    : Z * option (InstanceInfo * bool) :=
  match instance_dirs st !! name with
  | None => (1, None)
  | Some d =>
      match instance_info d with
      | None => (1, None)
      | Some i => (0, Some (i, is_running (NAME i) (running st)))
      end
  end.

(** ** Clone engine *)

(** The MySQL server of an instance takes its root password and its
    database from the environment of the compose file; a client call
    [-u root -p"$pw" wordpress] is served when both fit. *)
Definition mysql_accepts (d : InstanceDir) (pw : string) : bool :=
  match compose_file d with
  | Some c => bool_decide (MYSQL_ROOT_PASSWORD c = pw)
              && bool_decide (MYSQL_DATABASE c = "wordpress")
  | None => false
  end.

(** [docker exec NAME-mysql mysqldump -u root -p"$pw" wordpress] *)
Definition mysqldump (st : State) (name pw : string) : option (list string) :=
  d ← instance_dirs st !! name;
  if mysql_accepts d pw then Some (data_mysql d) else None.

Definition set_wordpress (w : WordpressData) (d : InstanceDir) : InstanceDir :=
  {| data_wordpress := w;
     data_mysql := data_mysql d;
     config_dirs := config_dirs d;
     log_links := log_links d;
     compose_file := compose_file d;
     instance_info := instance_info d |}.

Definition set_mysql (rows : list string) (d : InstanceDir) : InstanceDir :=
  {| data_wordpress := data_wordpress d;
     data_mysql := rows;
     config_dirs := config_dirs d;
     log_links := log_links d;
     compose_file := compose_file d;
     instance_info := instance_info d |}.

(** [docker exec -i NAME-mysql mysql -u root -p"$pw" wordpress < dump] *)
Definition mysql_import (st : State) (name pw : string) (dump : list string)
    : option State :=
  d ← instance_dirs st !! name;
  if mysql_accepts d pw
  then Some (set_dirs (<[name := set_mysql dump d]> (instance_dirs st)) st)
  else None.

Definition valid_strategy (strategy : string) : bool :=
  bool_decide (strategy = "symlink") || bool_decide (strategy = "copy-all")
  || bool_decide (strategy = "copy-files").

Definition all_containers (d : InstanceDir) : list string :=
  match compose_file d with
  | Some c => compose_containers c
  | None => []
  end.

(** The [copy-all] branch after the files are copied: start both MySQL
    services ([docker-compose start mysql] needs the compose file of the
    directory it runs in), dump the source with the root password read
    from the source's [.instance-info], import into the target with that
    same variable, delete the dump.  A failing command ends the script;
    the redirection has created the dump file by then. *)
Definition copy_database (source_name target_name root_pw : string)
    (sd td : InstanceDir) (st : State) : Run :=
  match compose_file sd with
  | None => (1, st)
  | Some sc =>
      let st0 := docker_start [mysql_container sc] st in
      match compose_file td with
      | None => (1, st0)
      | Some tc =>
          let st1 := docker_start [mysql_container tc] st0 in
          match mysqldump st1 source_name root_pw with
          | None => (1, set_tmp (Some []) st1)
          | Some dump =>
              let st2 := set_tmp (Some dump) st1 in
              match mysql_import st2 target_name root_pw dump with
              | None => (1, st2)
              | Some st3 => (0, set_tmp None st3)
              end
          end
      end
  end.

(** [clone_instance "$1" "$2" "$3"] *)
Definition clone_instance (env : Env) (source_name target_name a3 : string)
    (st : State) : Run :=
  let strategy := Shell.default_to "symlink" a3 in
  match instance_dirs st !! source_name with
  | None => (1, st)
  | Some sd =>
      match instance_info sd with
      | None => (1, st)
      | Some si =>
          if dir_exists st target_name then (1, st)
          else if negb (valid_strategy strategy) then (1, st)
          else
            let '(code, st1) :=
              create_instance env target_name (MYSQL_VERSION si)
                (PHP_VERSION si) (WEBSERVER si) st in
            if decide (code = 0) then
              match instance_dirs st1 !! target_name with
              | None => (1, st1)
              | Some td =>
                  let st2 := docker_stop (all_containers td) st1 in
                  let copied := set_wordpress (data_wordpress sd) td in
                  let linked := set_wordpress (Symlink source_name) td in
                  let put d := set_dirs (<[target_name := d]> (instance_dirs st2)) st2 in
                  let '(code3, st3) :=
                    if decide (strategy = "symlink") then (0, put linked)
                    else if decide (strategy = "copy-all") then
                      copy_database source_name target_name
                        (DB_ROOT_PASSWORD si) sd copied (put copied)
                    else (0, put copied) in
                  if decide (code3 = 0)
                  then (0, docker_start (all_containers td) st3)
                  else (code3, st3)
              end
            else (code, st1)
      end
  end.

(** ** Command dispatch *)

Definition arg (n : nat) (args : list string) : string :=
  default "" (args !! n).

(** The [case "${1:-}"] at the end of the script; [args] is [$1 $2 ...].
    [usage] prints the help and exits 1.  [list], [info] and [logs] only
    print. *)
Definition main (env : Env) (args : list string) (st : State) : Run :=
  let cmd := arg 0 args in
  let a2 := arg 1 args in
  if decide (cmd = "create") then
    if decide (a2 = "") then (1, st)
    else create_instance env a2 (Shell.default_to "80" (arg 2 args))
           (Shell.default_to "83" (arg 3 args))
           (Shell.default_to "nginx" (arg 4 args)) st
  else if decide (cmd = "start") then
    if decide (a2 = "") then (1, st) else start_instance a2 st
  else if decide (cmd = "stop") then
    if decide (a2 = "") then (1, st) else stop_instance a2 st
  else if decide (cmd = "remove") then
    if decide (a2 = "") then (1, st) else remove_instance env a2 st
  else if decide (cmd = "list") then (0, st)
  else if decide (cmd = "info") then
    if decide (a2 = "") then (1, st) else ((show_info a2 st).1, st)
  else if decide (cmd = "clone") then
    if decide (a2 = "") then (1, st)
    else clone_instance env a2 (arg 2 args)
           (Shell.default_to "symlink" (arg 3 args)) st
  else if decide (cmd = "logs") then
    if decide (a2 = "") then (1, st)
    else if decide (is_Some (instance_dirs st !! a2)) then (0, st) else (1, st)
  else (1, st).

(** A session: one invocation after the other on the same host. *)
Definition session (cmds : list (Env * list string)) (st : State) : State :=
  foldl (λ s c, (main c.1 c.2 s).2) st cmds.

(** ** The loaders of [cli-tool/bin/wp-dind.js] *)

Module Cli.

#[local] Unset Elimination Schemes.
Inductive json :=
  | JNull
  | JBool (b : bool)
  | JNumber (n : Z)
  | JString (s : string)
  | JArray (items : list json)
  | JObject (members : list (string * json)).
#[local] Set Elimination Schemes.

(** A file on disk, given by what [JSON.parse] makes of its text.  The
    file system the loaders look at is a map from paths to files. *)
Inductive file :=
  | Malformed
  | Parsed (value : json).

(** A call returns a value or throws. *)
Inductive result :=
  | Return (value : json)
  | Throw.

(** [JSON.parse(fs.readFileSync(path, 'utf8'))] on an existing file. *)
Definition parse_file (f : file) : result :=
  match f with
  | Parsed v => Return v
  | Malformed => Throw
  end.

(** [path.join(dir, name)] for a directory path without trailing
    separator. *)
Definition path_join (dir name : string) : string := dir +:+ "/" +:+ name.

(** [loadConfig()]; [CONFIG_FILE] is [~/.wp-dind-config.json]. *)
Definition loadConfig (fs : gmap string file) (CONFIG_FILE : string) : result :=
  match fs !! CONFIG_FILE with
  | Some f => parse_file f
  | None =>
      Return (JObject [("defaultImagePath", JNull); ("instances", JObject [])])
  end.

(** [loadWorkspaceConfig(targetDir)] *)
Definition loadWorkspaceConfig (fs : gmap string file) (targetDir : string)
    : result :=
  let workspaceFile := path_join targetDir "wp-dind-workspace.json" in
  match fs !! workspaceFile with
  | Some f => parse_file f
  | None => Return JNull
  end.

(** Member access [value.key] on a returned object. *)
Definition member (key : string) (v : json) : option json :=
  match v with
  | JObject members => (λ r, r.2.2) <$> list_find (λ kv, kv.1 = key) members
  | _ => None
  end.

(** The [instance <action> [args...]] command up to its [execCommand]:
    an action outside [validActions] prints the error and exits 1
    without running anything; any other is handed to the manager inside
    the DinD container. *)
Definition validActions : list string :=
  ["create"; "start"; "stop"; "remove"; "list"; "info"; "logs"].

(** [args.join(' ')] *)
Definition join (args : list string) : string :=
  match args with
  | [] => ""
  | a :: rest => foldl (λ acc x, acc +:+ " " +:+ x) a rest
  end.

Inductive handover :=
  | Rejected
  | Forwarded (cmd : string).

Definition instance_command (action : string) (args : list string)
    : handover :=
  if bool_decide (action ∈ validActions)
  then Forwarded ("docker-compose exec -T wordpress-dind instance-manager.sh "
                  +:+ action +:+ " " +:+ join args)
  else Rejected.

End Cli.

(** ** Definitions used by the statements *)

(** The allocator in the words of the specification: the range start
    when nothing is assigned, else the larger of the range start and one
    more than the highest assigned port. *)
Fixpoint highest_port (ports : list Z) : option Z :=
  match ports with
  | [] => None
  | p :: ps =>
      Some (match highest_port ps with
            | None => p
            | Some h => Z.max p h
            end)
  end.

Definition next_port_spec (rangeStart : Z) (ports : list Z) : Z :=
  match highest_port ports with
  | None => rangeStart
  | Some h => Z.max rangeStart (1 + h)
  end.

(** A workspace right after initialisation: the config file is there
    and lists no instance, no instance directory exists, the engine has
    no network and runs no container. *)
Definition empty_workspace (other : string) : State :=
  {| workspace_config := Some {| doc_other := other; doc_instances := Some ∅ |};
     instance_dirs := ∅;
     host_logs := ∅;
     networks := ∅;
     running := [];
     tmp_clone_db := None |}.

(** The metadata of an instance, and the port written there. *)
Definition info_of (st : State) (name : string) : option InstanceInfo :=
  instance_dirs st !! name ≫= instance_info.

Definition assigned_port (st : State) (name : string) : option Z :=
  PORT <$> info_of st name.

(** The entry of an instance in the workspace config. *)
Definition entry_of (st : State) (name : string) : option InstanceEntry :=
  doc ← workspace_config st; m ← doc_instances doc; m !! name.

(** An environment in which the engine creates the networks it is asked
    for and the operator answers yes. *)
Definition cooperative (env : Env) : Prop :=
  network_create_ok env = true ∧ shared_create_ok env = true
  ∧ confirm env = "yes".

(** No two instances recorded in the workspace config have the same
    port. *)
Definition ports_unique (st : State) : Prop :=
  ∀ n1 n2 e1 e2 p,
    entry_of st n1 = Some e1 → entry_of st n2 = Some e2 →
    entry_port e1 = Some p → entry_port e2 = Some p → n1 = n2.

(** What one invocation can do to the workspace config: leave it, record
    an instance under the port [get_next_port] returns, or delete an
    entry. *)
Inductive config_step (cfg : option WorkspaceDoc)
    : option WorkspaceDoc → Prop :=
  | step_keep : config_step cfg cfg
  | step_save env name web php mysql :
      config_step cfg
        (save_instance_to_config env name (get_next_port cfg) web php mysql cfg).2
  | step_delete name :
      config_step cfg (remove_instance_from_config name cfg).2.

(** Every recorded port lies below [bound]; no port is recorded twice. *)
Definition ports_below (bound : Z) (cfg : option WorkspaceDoc) : Prop :=
  ∀ doc m n e p,
    cfg = Some doc → doc_instances doc = Some m →
    m !! n = Some e → entry_port e = Some p → p < bound.

Definition config_unique (cfg : option WorkspaceDoc) : Prop :=
  ∀ doc m n1 n2 e1 e2 p,
    cfg = Some doc → doc_instances doc = Some m →
    m !! n1 = Some e1 → m !! n2 = Some e2 →
    entry_port e1 = Some p → entry_port e2 = Some p → n1 = n2.

(** The network ordinal [create] computes for a new directory, and the
    metadata and directory a completed [create] leaves for it. *)
Definition next_network (st : State) : string :=
  network_name (S (S (size (instance_dirs st)))).

Definition created_info (env : Env) (name a2 a3 a4 : string) (st : State)
    : InstanceInfo :=
  render_info env name
    (Shell.default_to (DEFAULT_MYSQL_VERSION env) a2)
    (Shell.default_to (DEFAULT_PHP_VERSION env) a3)
    (Shell.default_to (DEFAULT_WEBSERVER env) a4)
    (next_network st) (get_next_port (workspace_config st)).

Definition created_dir (env : Env) (name a2 a3 a4 : string) (st : State)
    : InstanceDir :=
  let mysql_version := Shell.default_to (DEFAULT_MYSQL_VERSION env) a2 in
  let php_version := Shell.default_to (DEFAULT_PHP_VERSION env) a3 in
  let webserver := Shell.default_to (DEFAULT_WEBSERVER env) a4 in
  finish_dir
    (fresh_dir (php_full_version php_version) (mysql_full_version mysql_version)
       webserver (webserver_version webserver))
    (render_compose env name mysql_version php_version webserver
       (get_next_port (workspace_config st)) (next_network st))
    (created_info env name a2 a3 a4 st).

(** The engine lets [create] through: each of the two networks is there
    already or the engine creates it. *)
Definition engine_accepts (env : Env) (st : State) : Prop :=
  (next_network st ∈ networks st ∨ network_create_ok env = true)
  ∧ ("wp-shared" ∈ networks st ∨ shared_create_ok env = true).

(** The name format of the specification, [[A-Za-z0-9_-]+]. *)
Definition name_char (c : Ascii.ascii) : bool :=
  let n := Ascii.nat_of_ascii c in
  ((65 <=? n) && (n <=? 90))%nat      (* A-Z *)
  || ((97 <=? n) && (n <=? 122))%nat  (* a-z *)
  || ((48 <=? n) && (n <=? 57))%nat   (* 0-9 *)
  || (n =? 95)%nat                    (* _ *)
  || (n =? 45)%nat.                   (* - *)

Definition valid_name (name : string) : bool :=
  negb (bool_decide (name = ""))
  && forallb name_char (String.list_ascii_of_string name).

(** Sample environment and sessions for the worked examples. *)
Definition sample_env : Env :=
  {| DEFAULT_MYSQL_VERSION := "80";
     DEFAULT_PHP_VERSION := "83";
     DEFAULT_WEBSERVER := "nginx";
     DEFAULT_DB_NAME := "wordpress";
     DEFAULT_DB_USER := "wordpress";
     rand_db_password := "Zk3vQm9LxT2aB7cD5eF1gH8jK";
     rand_db_root_password := "R4tY6uI8oP0aS2dF4gH6jK8lZ";
     date_iseconds := "2025-03-01T10:00:00+00:00";
     jq_now := "2025-03-01T10:00:00Z";
     network_create_ok := true;
     shared_create_ok := true;
     confirm := "yes" |}.

(** The same operator a moment later: the generator has moved on. *)
Definition sample_env' : Env :=
  {| DEFAULT_MYSQL_VERSION := "80";
     DEFAULT_PHP_VERSION := "83";
     DEFAULT_WEBSERVER := "nginx";
     DEFAULT_DB_NAME := "wordpress";
     DEFAULT_DB_USER := "wordpress";
     rand_db_password := "n5Xc7Vb9Nm1Qw3Er5Ty7Ui9Op";
     rand_db_root_password := "pL0oK9iJ8uH7yG6tF5rD4eS3w";
     date_iseconds := "2025-03-01T10:05:00+00:00";
     jq_now := "2025-03-01T10:05:00Z";
     network_create_ok := true;
     shared_create_ok := true;
     confirm := "yes" |}.

Definition sample_doc : WorkspaceDoc :=
  {| doc_other := "";
     doc_instances :=
       Some (<["shop" := new_entry sample_env' 8004 "nginx" "8.3" "8.0"]>
               (<["blog" := new_entry sample_env 8001 "apache" "7.4" "5.7"]> ∅)) |}.

Definition sample_cmds : list (Env * list string) :=
  [(sample_env, ["create"; "alpha"; "80"; "83"; "nginx"]);
   (sample_env', ["create"; "beta"; "80"; "83"; "nginx"]);
   (sample_env, ["remove"; "alpha"]);
   (sample_env', ["create"; "gamma"; "57"; "74"; "apache"])].

(** alpha and beta created, alpha removed again. *)
Definition after_removal : State :=
  session (take 3 sample_cmds) (empty_workspace "").

(** A host whose workspace config file is missing. *)
Definition no_config : State :=
  {| workspace_config := None;
     instance_dirs := ∅;
     host_logs := ∅;
     networks := ∅;
     running := [];
     tmp_clone_db := None |}.

(** WordPress installed in an instance: files under [data/wordpress] and
    rows in its database (the work of [install-wordpress.sh], taken as
    given). *)
Definition install_wordpress (name : string) (files : gmap string string)
    (rows : list string) (st : State) : State :=
  match instance_dirs st !! name with
  | Some d =>
      set_dirs (<[name := set_mysql rows (set_wordpress (Files files) d)]>
                  (instance_dirs st)) st
  | None => st
  end.

Definition sample_rows : list string :=
  ["wp_options: siteurl=http://localhost:8001"; "wp_posts: Hello world!";
   "wp_users: admin"].

Definition sample_files : gmap string string :=
  {[ "index.php" := "<?php require __DIR__ . '/wp-blog-header.php';";
     "wp-config.php" := "<?php define('DB_NAME', 'wordpress');" ]}.

(** alpha created and installed. *)
Definition installed : State :=
  install_wordpress "alpha" sample_files sample_rows
    (main sample_env ["create"; "alpha"; "80"; "83"; "nginx"]
       (empty_workspace "")).2.

(** Names grep reads literally inside ["^${NAME}-"]: none of the
    characters [. [ ] \ * ^ $] (codes 46, 91, 93, 92, 42, 94, 36). *)
Definition bre_special (c : Ascii.ascii) : bool :=
  bool_decide (Ascii.nat_of_ascii c ∈ [46; 91; 93; 92; 42; 94; 36]%nat).

Definition grep_literal (name : string) : bool :=
  forallb (λ c, negb (bre_special c)) (String.list_ascii_of_string name).

(** foo and foo-bar created, only foo-bar started. *)
Definition prefix_demo : State :=
  session [(sample_env, ["create"; "foo"; "80"; "83"; "nginx"]);
           (sample_env', ["create"; "foo-bar"; "57"; "74"; "apache"]);
           (sample_env, ["start"; "foo-bar"])]
    (empty_workspace "").

(** What one invocation can do to the metadata files and the workspace
    config together: nothing (the directory count may grow by a bare
    directory), the creation of one instance, or, for [remove] only,
    the removal of one. *)
Inductive effect (removal : bool) (st st' : State) : Prop :=
  | effect_keep :
      workspace_config st' = workspace_config st →
      (∀ n, info_of st' n = info_of st n) →
      (size (instance_dirs st) ≤ size (instance_dirs st'))%nat →
      effect removal st st'
  | effect_create env name a2 a3 a4 :
      instance_dirs st !! name = None →
      workspace_config st' =
        (save_instance_to_config env name (get_next_port (workspace_config st))
           (Shell.default_to (DEFAULT_WEBSERVER env) a4)
           (php_full_version (Shell.default_to (DEFAULT_PHP_VERSION env) a3))
           (mysql_full_version (Shell.default_to (DEFAULT_MYSQL_VERSION env) a2))
           (workspace_config st)).2 →
      info_of st' name = Some (created_info env name a2 a3 a4 st) →
      (∀ n, n ≠ name → info_of st' n = info_of st n) →
      size (instance_dirs st') = S (size (instance_dirs st)) →
      effect removal st st'
  | effect_remove name :
      removal = true →
      workspace_config st' =
        (remove_instance_from_config name (workspace_config st)).2 →
      info_of st' name = None →
      (∀ n, n ≠ name → info_of st' n = info_of st n) →
      effect removal st st'.

(** The metadata files agree with the workspace config on the ports. *)
Definition ports_recorded (st : State) : Prop :=
  ∀ n i, info_of st n = Some i →
    ∃ e, entry_of st n = Some e ∧ entry_port e = Some (PORT i).

(** ** Names, words and answers the model reads as the script does

    The script splices the instance name into paths
    ([${INSTANCES_DIR}/${name}]), into the container names of the
    compose file, into the grep pattern of the status test and into
    [.instance-info], which [start], [list], [info] and [clone] later
    run with [source]; the answer at the prompt of [remove] goes through
    [read].  The state keys the instance directories by the name as it
    was typed and keeps the answer as it was typed.  Script and model
    agree on a name that is one plain directory name, on metadata whose
    values are single shell words, and on an answer [read] hands over
    unchanged.  The statements that depend on it carry these conditions
    as hypotheses. *)

Definition alnum (c : Ascii.ascii) : bool :=
  let n := Ascii.nat_of_ascii c in
  ((65 <=? n) && (n <=? 90))%nat      (* A-Z *)
  || ((97 <=? n) && (n <=? 122))%nat  (* a-z *)
  || ((48 <=? n) && (n <=? 57))%nat.  (* 0-9 *)

(** A first character and the characters after it, of a name that is
    not empty. *)
Definition word_of (first rest : Ascii.ascii → bool) (s : string) : bool :=
  match s with
  | EmptyString => false
  | String c cs => first c && forallb rest (String.list_ascii_of_string cs)
  end.

(** [[A-Za-z0-9][A-Za-z0-9_-]*], at most 64 characters: a name of the
    specification's format that begins with a letter or a digit, as the
    engine asks of the container names [name-mysql], [name-php],
    [name-<webserver>], and stays well within the length of a file name.
    Such a name is one path component, no dot name, and reads the same
    as a path, as a shell word and as a grep pattern. *)
Definition plain_name (name : string) : bool :=
  (String.length name <=? 64)%nat && word_of alnum name_char name.

(** [[A-Za-z0-9][A-Za-z0-9_.-]*], at most 64 characters: the same with
    dots allowed after the first character.  Still one path component
    and one shell word, and never [.], [..] or the file
    [.workspace-config.json]. *)
Definition dotted_char (c : Ascii.ascii) : bool :=
  name_char c || (Ascii.nat_of_ascii c =? 46)%nat.

Definition dotted_name (name : string) : bool :=
  (String.length name <=? 64)%nat && word_of alnum dotted_char name.

(** A value that [source] reads back as it was written after [KEY=]:
    letters, digits and [_ - . : +] (codes 46, 58, 43), which covers the
    version codes, the output of [date -Iseconds] and the passwords cut
    from [openssl rand -base64]. *)
Definition safe_char (c : Ascii.ascii) : bool :=
  name_char c || bool_decide (Ascii.nat_of_ascii c ∈ [46; 58; 43]%nat).

Definition shell_safe (s : string) : bool :=
  forallb safe_char (String.list_ascii_of_string s).

(** A metadata file that [source] runs as nine assignments. *)
Definition sourceable (i : InstanceInfo) : bool :=
  shell_safe (NAME i) && shell_safe (MYSQL_VERSION i)
  && shell_safe (PHP_VERSION i) && shell_safe (WEBSERVER i)
  && shell_safe (NETWORK i) && shell_safe (CREATED i)
  && shell_safe (DB_PASSWORD i) && shell_safe (DB_ROOT_PASSWORD i).

(** A state whose keys are names of directories directly under
    [INSTANCES_DIR] and whose metadata files can all be sourced. *)
Definition well_formed (st : State) : bool :=
  forallb (λ kv : string * InstanceDir,
             dotted_name kv.1
             && from_option sourceable true (instance_info kv.2))
    (map_to_list (instance_dirs st)).

(** An argument of the command line: omitted, or a plain word (the
    command words, the version codes, the webservers and the clone
    strategies are plain words). *)
Definition plain_arg (a : string) : bool :=
  bool_decide (a = "") || plain_name a.

(** A line typed at the prompt, ended by the return key, that [read]
    stores unchanged: printable characters other than the blank and the
    backslash (codes 33 to 126 without 92). *)
Definition plain_answer (a : string) : bool :=
  forallb (λ c, let n := Ascii.nat_of_ascii c in
                (33 <=? n)%nat && (n <=? 126)%nat && negb (n =? 92)%nat)
    (String.list_ascii_of_string a).

(** One invocation with plain arguments, a plain answer, and generated
    values of the shape the generators give. *)
Definition plain_run (c : Env * list string) : bool :=
  forallb plain_arg c.2
  && plain_answer (confirm c.1)
  && shell_safe (rand_db_password c.1)
  && shell_safe (rand_db_root_password c.1)
  && shell_safe (date_iseconds c.1).

Definition plain_session (cmds : list (Env * list string)) : bool :=
  forallb plain_run cmds.


(** An entry that was written without a port. *)
Definition draft_entry : InstanceEntry :=
  {| entry_port := None;
     entry_stack := {| stack_webserver := "nginx";
                       stack_phpVersion := "8.3";
                       stack_mysqlVersion := "8.0" |};
     entry_createdAt := "2025-03-02T09:00:00Z";
     entry_status := "created" |}.

(** An operator who answers the prompt with [y]. *)
Definition hasty_env : Env :=
  {| DEFAULT_MYSQL_VERSION := "80";
     DEFAULT_PHP_VERSION := "83";
     DEFAULT_WEBSERVER := "nginx";
     DEFAULT_DB_NAME := "wordpress";
     DEFAULT_DB_USER := "wordpress";
     rand_db_password := "aB3dE5gH7jK9mN1pQ3sT5vX7z";
     rand_db_root_password := "Z9yX7wV5uT3sR1qP9oN7mL5kJ";
     date_iseconds := "2025-03-01T10:10:00+00:00";
     jq_now := "2025-03-01T10:10:00Z";
     network_create_ok := true;
     shared_create_ok := true;
     confirm := "y" |}.

(** alpha and beta created. *)
Definition two_instances : State :=
  session (take 2 sample_cmds) (empty_workspace "").

(** The registry is consistent at [n]: a metadata file exists exactly
    when the workspace config has an entry, and then the file names the
    directory it lies in and carries the port of the entry. *)
Definition registry_consistent (st : State) (n : string) : Prop :=
  (is_Some (info_of st n) ↔ is_Some (entry_of st n))
  ∧ ∀ i, info_of st n = Some i →
      NAME i = n ∧ entry_port <$> entry_of st n = Some (Some (PORT i)).

(** A word is a command of the manager when the dispatcher can do
    something else with it than print the usage text and exit 1 with
    the state untouched. *)
Definition dispatched (word : string) : Prop :=
  ∃ env args st, main env (word :: args) st ≠ (1, st).

(** The environment with other version defaults. *)
Definition with_defaults (mysql php web : string) (env : Env) : Env :=
  {| DEFAULT_MYSQL_VERSION := mysql;
     DEFAULT_PHP_VERSION := php;
     DEFAULT_WEBSERVER := web;
     DEFAULT_DB_NAME := DEFAULT_DB_NAME env;
     DEFAULT_DB_USER := DEFAULT_DB_USER env;
     rand_db_password := rand_db_password env;
     rand_db_root_password := rand_db_root_password env;
     date_iseconds := date_iseconds env;
     jq_now := jq_now env;
     network_create_ok := network_create_ok env;
     shared_create_ok := shared_create_ok env;
     confirm := confirm env |}.


(** * Properties *)

(** ** Shell arithmetic *)

Lemma wrap64_exact z :
  Shell.INT64_MIN ≤ z ≤ Shell.INT64_MAX → Shell.wrap64 z = z.
Proof.
  unfold Shell.INT64_MIN, Shell.INT64_MAX, Shell.wrap64. intros Hz.
  rewrite Z.mod_small by lia. lia.
Qed.

Lemma scan_port_max m p :
  INSTANCE_PORT_START ≤ m ≤ Shell.INT64_MAX → p < Shell.INT64_MAX →
  scan_port m p = Z.max m (p + 1).
Proof.
  unfold scan_port, Shell.test_ge, Shell.is_int64, INSTANCE_PORT_START.
  intros Hm Hp.
  assert (Hmin : Shell.INT64_MIN < 0) by (unfold Shell.INT64_MIN; lia).
  repeat case_bool_decide; simpl; try lia.
  rewrite wrap64_exact by lia. lia.
Qed.

(** ** The port allocator against its specification *)

Lemma foldl_scan_port ports : ∀ m,
  INSTANCE_PORT_START ≤ m ≤ Shell.INT64_MAX →
  Forall (λ p, p < Shell.INT64_MAX) ports →
  foldl scan_port m ports = next_port_spec m ports
  ∧ foldl scan_port m ports ≤ Shell.INT64_MAX.
Proof.
  unfold next_port_spec.
  induction ports as [|p ps IH]; intros m Hm Hall; simpl.
  - lia.
  - inversion Hall as [|? ? Hp Hps]; subst.
    rewrite scan_port_max by done.
    destruct (IH (Z.max m (p + 1))) as [-> Hle]; [lia | done |].
    destruct (highest_port ps); lia.
Qed.

Lemma highest_port_bound ports h :
  highest_port ports = Some h → h ∈ ports ∧ ∀ p, p ∈ ports → p ≤ h.
Proof.
  revert h. induction ports as [|p ps IH]; intros h; simpl; [done |].
  destruct (highest_port ps) as [h'|] eqn:E; intros [= <-].
  - destruct (IH h' eq_refl) as [Hin Hle]. split.
    + destruct (Z.max_spec p h') as [[_ ->] | [_ ->]];
        [by apply list_elem_of_further | by apply list_elem_of_here].
    + intros q [->|Hq]%elem_of_cons; [lia |]. specialize (Hle q Hq). lia.
  - destruct ps; [| done]. split; [by apply list_elem_of_here |].
    intros q [->|Hq]%elem_of_cons; [lia | by apply elem_of_nil in Hq].
Qed.

Lemma highest_port_None ports : highest_port ports = None → ports = [].
Proof. by destruct ports. Qed.

(** What [next_port_spec] means: the least integer from the range start
    on that exceeds every assigned port. *)
Lemma next_port_spec_least start ports :
  let n := next_port_spec start ports in
  start ≤ n ∧ (∀ p, p ∈ ports → p < n)
  ∧ ∀ m, start ≤ m → (∀ p, p ∈ ports → p < m) → n ≤ m.
Proof.
  unfold next_port_spec. destruct (highest_port ports) as [h|] eqn:E; simpl.
  - destruct (highest_port_bound _ _ E) as [Hin Hle]. repeat split; [lia | |].
    + intros p Hp. specialize (Hle p Hp). lia.
    + intros m Hm Hall. specialize (Hall h Hin). lia.
  - apply highest_port_None in E as ->. repeat split; [lia | | auto].
    intros p Hp. by apply elem_of_nil in Hp.
Qed.

Lemma scan_ports_spec ports :
  Forall (λ p, p < Shell.INT64_MAX) ports →
  scan_ports ports = next_port_spec INSTANCE_PORT_START ports
  ∧ scan_ports ports ≤ Shell.INT64_MAX.
Proof.
  intros H. apply foldl_scan_port; [| done].
  unfold INSTANCE_PORT_START, Shell.INT64_MAX. lia.
Qed.

Lemma next_port_spec_perm start ports ports' :
  ports ≡ₚ ports' → next_port_spec start ports = next_port_spec start ports'.
Proof.
  intros Hp.
  destruct (next_port_spec_least start ports) as (H1 & H2 & H3).
  destruct (next_port_spec_least start ports') as (H1' & H2' & H3').
  apply Z.le_antisymm.
  - apply H3; [done |]. intros p Hin. apply H2'. by rewrite <- Hp.
  - apply H3'; [done |]. intros p Hin. apply H2. by rewrite Hp.
Qed.

Ltac open_env e :=
  let H := fresh in
  intros H; destruct e; unfold cooperative in H; simpl in H;
  destruct H as (? & ? & ?); subst.

(** The scenario of the specification, for any passwords and dates. *)
Lemma port_scenario (other : string) (e1 e2 e3 e4 : Env) :
  cooperative e1 → cooperative e2 → cooperative e3 → cooperative e4 →
  let r1 := main e1 ["create"; "alpha"; "80"; "83"; "nginx"]
              (empty_workspace other) in
  let r2 := main e2 ["create"; "beta"; "80"; "83"; "nginx"] r1.2 in
  let r3 := main e3 ["remove"; "alpha"] r2.2 in
  let r4 := main e4 ["create"; "gamma"; "80"; "83"; "nginx"] r3.2 in
  (r1.1 = 0 ∧ assigned_port r1.2 "alpha" = Some 8001
   ∧ entry_port <$> entry_of r1.2 "alpha" = Some (Some 8001))
  ∧ (r2.1 = 0 ∧ assigned_port r2.2 "beta" = Some 8002
     ∧ entry_port <$> entry_of r2.2 "beta" = Some (Some 8002))
  ∧ (r3.1 = 0 ∧ info_of r3.2 "alpha" = None ∧ entry_of r3.2 "alpha" = None)
  ∧ (r4.1 = 0 ∧ assigned_port r4.2 "gamma" = Some 8003
     ∧ entry_port <$> entry_of r4.2 "gamma" = Some (Some 8003)).
Proof.
  open_env e1. open_env e2. open_env e3. open_env e4.
  vm_compute. done.
Qed.

(** C1.  For a workspace config whose ports bash can increment,
    [get_next_port] is [max(8001, 1 + highest assigned port)]: at least
    the range start, above every assigned port, and the least such
    integer, in whatever order the ports are scanned.  From an empty
    workspace create(alpha) gets 8001, create(beta) 8002 and, once alpha
    is removed, create(gamma) 8003. *)
Theorem get_next_port_append_only (doc : WorkspaceDoc)
    (Hports : Forall (λ p, p < Shell.INT64_MAX) (assigned_ports doc)) :
  let n := get_next_port (Some doc) in
  (n = next_port_spec 8001 (assigned_ports doc)
   ∧ 8001 ≤ n
   ∧ (∀ p, p ∈ assigned_ports doc → p < n)
   ∧ (∀ m, 8001 ≤ m → (∀ p, p ∈ assigned_ports doc → p < m) → n ≤ m))
  ∧ (∀ scanned, scanned ≡ₚ assigned_ports doc → scan_ports scanned = n)
  ∧ (∀ other e1 e2 e3 e4,
       cooperative e1 → cooperative e2 → cooperative e3 → cooperative e4 →
       let r1 := main e1 ["create"; "alpha"; "80"; "83"; "nginx"]
                   (empty_workspace other) in
       let r2 := main e2 ["create"; "beta"; "80"; "83"; "nginx"] r1.2 in
       let r3 := main e3 ["remove"; "alpha"] r2.2 in
       let r4 := main e4 ["create"; "gamma"; "80"; "83"; "nginx"] r3.2 in
       assigned_port r1.2 "alpha" = Some 8001
       ∧ assigned_port r2.2 "beta" = Some 8002
       ∧ r3.1 = 0 ∧ info_of r3.2 "alpha" = None
       ∧ assigned_port r4.2 "gamma" = Some 8003).
Proof.
  cbv zeta. unfold get_next_port.
  destruct (scan_ports_spec _ Hports) as [Heq _].
  change 8001 with INSTANCE_PORT_START. rewrite Heq.
  pose proof (next_port_spec_least INSTANCE_PORT_START (assigned_ports doc))
    as (Hge & Hgt & Hleast).
  split; [by repeat split |]. split.
  - intros scanned Hperm.
    assert (Hs : Forall (λ p, p < Shell.INT64_MAX) scanned) by by rewrite Hperm.
    destruct (scan_ports_spec _ Hs) as [-> _]. by apply next_port_spec_perm.
  - intros other e1 e2 e3 e4 H1 H2 H3 H4.
    pose proof (port_scenario other e1 e2 e3 e4 H1 H2 H3 H4) as Hsc.
    cbv zeta in Hsc.
    destruct Hsc as ((_ & Ha & _) & (_ & Hb & _) & (Hr & Hi & _) & (_ & Hg & _)).
    by repeat split.
Qed.

(** ** What the commands do to the workspace config *)

Lemma create_instance_config env name a2 a3 a4 st :
  config_step (workspace_config st)
    (workspace_config (create_instance env name a2 a3 a4 st).2).
Proof.
  unfold create_instance.
  destruct (dir_exists st name); [constructor |].
  destruct (negb _); [constructor |]. simpl.
  destruct (ensure_network _ _ _) as [nets1|]; [| constructor].
  destruct (ensure_network _ _ _) as [nets2|]; [| constructor].
  destruct (workspace_config st) as [doc|] eqn:E; simpl.
  - pose proof (step_save (Some doc) env name) as Hs. simpl in Hs. apply Hs.
  - constructor.
Qed.

Lemma copy_database_config src tgt pw sd td st :
  workspace_config (copy_database src tgt pw sd td st).2 = workspace_config st.
Proof.
  unfold copy_database, mysqldump, mysql_import.
  destruct (compose_file sd); [| done].
  destruct (compose_file td); [| done]. simpl.
  destruct (instance_dirs st !! src) as [d|]; simpl; [| done].
  destruct (mysql_accepts d pw); simpl; [| done].
  destruct (instance_dirs st !! tgt) as [d'|]; simpl; [| done].
  by destruct (mysql_accepts d' pw).
Qed.

Lemma clone_instance_config env src tgt a3 st :
  config_step (workspace_config st)
    (workspace_config (clone_instance env src tgt a3 st).2).
Proof.
  unfold clone_instance.
  destruct (instance_dirs st !! src) as [sd|]; [| constructor].
  destruct (instance_info sd) as [si|]; [| constructor].
  destruct (dir_exists st tgt); [constructor |].
  destruct (negb _); [constructor |].
  pose proof (create_instance_config env tgt (MYSQL_VERSION si)
                (PHP_VERSION si) (WEBSERVER si) st) as Hc.
  destruct (create_instance _ _ _ _ _ _) as [code st1]. simpl in Hc.
  case_decide; [| done].
  destruct (instance_dirs st1 !! tgt) as [td|]; [| done].
  repeat case_decide; simpl; try done.
  pose proof (copy_database_config src tgt (DB_ROOT_PASSWORD si) sd
    (set_wordpress (data_wordpress sd) td)
    (set_dirs (<[tgt:=set_wordpress (data_wordpress sd) td]>
                 (instance_dirs (docker_stop (all_containers td) st1)))
       (docker_stop (all_containers td) st1))) as Hdb.
  destruct (copy_database _ _ _ _ _ _) as [code3 st3]. simpl in Hdb.
  case_decide; simpl; by rewrite Hdb.
Qed.

Lemma remove_instance_config env name st :
  config_step (workspace_config st)
    (workspace_config (remove_instance env name st).2).
Proof.
  unfold remove_instance.
  destruct (instance_dirs st !! name) as [d|]; [| constructor].
  case_decide; [| constructor].
  destruct (compose_file d); [| constructor].
  destruct (workspace_config st) as [doc|] eqn:E; simpl; rewrite E; simpl.
  - pose proof (step_delete (Some doc) name) as Hs. apply Hs.
  - constructor.
Qed.

Lemma main_config env args st :
  config_step (workspace_config st) (workspace_config (main env args st).2).
Proof.
  unfold main, start_instance, stop_instance.
  repeat case_decide; simpl;
    auto using step_keep, create_instance_config, clone_instance_config,
               remove_instance_config.
  - destruct (instance_dirs st !! _) as [d|]; [| constructor].
    destruct (instance_info d), (compose_file d); constructor.
  - destruct (instance_dirs st !! _) as [d|]; [| constructor].
    destruct (compose_file d); constructor.
Qed.

(** ** Port uniqueness as an invariant *)

Lemma assigned_ports_lookup doc m n e p :
  doc_instances doc = Some m → m !! n = Some e → entry_port e = Some p →
  p ∈ assigned_ports doc.
Proof.
  intros Hm Hn Hp. unfold assigned_ports, doc_entries. rewrite Hm.
  apply list_elem_of_omap. exists (n, e). split; [| done].
  by apply elem_of_map_to_list.
Qed.

Lemma assigned_ports_below bound doc :
  ports_below bound (Some doc) → Forall (λ p, p < bound) (assigned_ports doc).
Proof.
  intros Hb. apply Forall_forall. intros p Hin.
  unfold assigned_ports, doc_entries in Hin.
  destruct (doc_instances doc) as [m|] eqn:Hm.
  - apply list_elem_of_omap in Hin as ([n e] & Hin & Hp).
    apply elem_of_map_to_list in Hin. by eapply Hb.
  - by apply elem_of_nil in Hin.
Qed.

(** The port handed out is above every recorded port and at most the
    bound the recorded ports keep. *)
Lemma get_next_port_fresh bound doc :
  ports_below bound (Some doc) →
  INSTANCE_PORT_START ≤ bound ≤ Shell.INT64_MAX →
  get_next_port (Some doc) ≤ bound
  ∧ ∀ p, p ∈ assigned_ports doc → p < get_next_port (Some doc).
Proof.
  intros Hb Hbound. simpl.
  pose proof (assigned_ports_below _ _ Hb) as Hall.
  assert (Hsmall : Forall (λ p, p < Shell.INT64_MAX) (assigned_ports doc)).
  { eapply Forall_impl; [exact Hall |]. simpl. intros p Hp. lia. }
  destruct (scan_ports_spec _ Hsmall) as [-> _].
  pose proof (next_port_spec_least INSTANCE_PORT_START (assigned_ports doc))
    as (_ & Hgt & Hleast).
  split; [| done]. apply Hleast; [lia |].
  intros p Hp. by apply (proj1 (Forall_forall _ _) Hall).
Qed.

Lemma config_step_invariant bound cfg cfg' :
  config_step cfg cfg' →
  INSTANCE_PORT_START ≤ bound ≤ Shell.INT64_MAX →
  ports_below bound cfg → config_unique cfg →
  ports_below (bound + 1) cfg' ∧ config_unique cfg'.
Proof.
  intros Hstep Hbound Hb Hu. destruct Hstep as [|env name web php mysql|name].
  - split; [| done]. intros doc m n e p ? ? ? ?.
    assert (p < bound) by by eapply Hb. lia.
  - destruct cfg as [doc|]; [| done].
    destruct (get_next_port_fresh _ _ Hb Hbound) as [Hle Hfresh].
    set (port := get_next_port (Some doc)) in *. simpl.
    assert (Hold : ∀ n e p, default ∅ (doc_instances doc) !! n = Some e →
                            entry_port e = Some p → p < port).
    { intros n e p Hn Hp. destruct (doc_instances doc) as [m|] eqn:Hm; simpl in Hn.
      - apply Hfresh. by eapply assigned_ports_lookup.
      - by rewrite lookup_empty in Hn. }
    split.
    + intros doc' m n e p [= <-] [= <-] Hn Hp. simpl in *.
      destruct (decide (name = n)) as [->|Hne].
      * rewrite lookup_insert_eq in Hn. injection Hn as <-.
        simpl in Hp. injection Hp as <-. lia.
      * rewrite lookup_insert_ne in Hn by done.
        specialize (Hold _ _ _ Hn Hp). lia.
    + intros doc' m n1 n2 e1 e2 p [= <-] [= <-] Hn1 Hn2 Hp1 Hp2. simpl in *.
      destruct (decide (name = n1)) as [E1|Hne1],
        (decide (name = n2)) as [E2|Hne2]; subst; [done | | |].
      * rewrite lookup_insert_eq in Hn1. injection Hn1 as <-.
        rewrite lookup_insert_ne in Hn2 by done.
        simpl in Hp1. injection Hp1 as <-.
        specialize (Hold _ _ _ Hn2 Hp2). lia.
      * rewrite lookup_insert_eq in Hn2. injection Hn2 as <-.
        rewrite lookup_insert_ne in Hn1 by done.
        simpl in Hp2. injection Hp2 as <-.
        specialize (Hold _ _ _ Hn1 Hp1). lia.
      * rewrite lookup_insert_ne in Hn1, Hn2 by done.
        destruct (doc_instances doc) as [m|] eqn:Hm; simpl in *.
        -- by eapply Hu.
        -- by rewrite lookup_empty in Hn1.
  - destruct cfg as [doc|]; [| done]. simpl.
    split.
    + intros doc' m n e p [= <-] Hm Hn Hp. simpl in Hm.
      destruct (doc_instances doc) as [m0|] eqn:Hm0; [| done].
      injection Hm as <-. apply lookup_delete_Some in Hn as [_ Hn].
      assert (p < bound) by by eapply Hb. lia.
    + intros doc' m n1 n2 e1 e2 p [= <-] Hm Hn1 Hn2 Hp1 Hp2. simpl in Hm.
      destruct (doc_instances doc) as [m0|] eqn:Hm0; [| done].
      injection Hm as <-.
      apply lookup_delete_Some in Hn1 as [_ Hn1].
      apply lookup_delete_Some in Hn2 as [_ Hn2].
      by eapply Hu.
Qed.

Lemma session_snoc cmds c st :
  session (cmds ++ [c]) st = (main c.1 c.2 (session cmds st)).2.
Proof. unfold session. by rewrite foldl_snoc. Qed.

Lemma session_invariant cmds : ∀ st,
  ports_below INSTANCE_PORT_START (workspace_config st) →
  config_unique (workspace_config st) →
  INSTANCE_PORT_START + Z.of_nat (length cmds) ≤ Shell.INT64_MAX →
  ports_below (INSTANCE_PORT_START + Z.of_nat (length cmds))
    (workspace_config (session cmds st))
  ∧ config_unique (workspace_config (session cmds st)).
Proof.
  induction cmds as [|c cmds IH] using rev_ind; intros st Hb Hu Hlen.
  - simpl. by rewrite Z.add_0_r.
  - rewrite length_app in *. simpl in *. rewrite session_snoc.
    destruct (IH st Hb Hu) as [Hb' Hu']; [lia |].
    replace (INSTANCE_PORT_START + Z.of_nat (length cmds + 1))
      with (INSTANCE_PORT_START + Z.of_nat (length cmds) + 1) by lia.
    eapply config_step_invariant; [apply main_config | | done | done].
    unfold INSTANCE_PORT_START in *. lia.
Qed.

Lemma config_unique_ports_unique st :
  config_unique (workspace_config st) → ports_unique st.
Proof.
  intros Hu n1 n2 e1 e2 p H1 H2 Hp1 Hp2. unfold entry_of in *.
  destruct (workspace_config st) as [doc|]; simpl in *; [| done].
  destruct (doc_instances doc) as [m|] eqn:Hm; simpl in *; [| done].
  by eapply Hu.
Qed.

(** C2.  From an empty workspace, after any number of commands of any
    sequence the shell can count ports for (create and remove among
    them), no two instances recorded in the workspace config have the
    same port. *)
Theorem port_uniqueness_invariant (other : string)
    (cmds : list (Env * list string)) (k : nat)
    (Hlen : INSTANCE_PORT_START + Z.of_nat (length cmds) ≤ Shell.INT64_MAX) :
  ports_unique (session (take k cmds) (empty_workspace other)).
Proof.
  apply config_unique_ports_unique.
  apply session_invariant.
  - intros doc m n e p [= <-] [= <-] Hn. by rewrite lookup_empty in Hn.
  - intros doc m n1 n2 e1 e2 p [= <-] [= <-] Hn. by rewrite lookup_empty in Hn.
  - rewrite length_take. lia.
Qed.

(** ** What a completed create leaves behind *)

Lemma ensure_network_Some ok n nets :
  n ∈ nets ∨ ok = true →
  ∃ nets', ensure_network ok n nets = Some nets' ∧ nets ⊆ nets' ∧ n ∈ nets'
           ∧ (n ∈ nets → nets' = nets).
Proof.
  unfold ensure_network. intros H. case_decide.
  - exists nets. by repeat split.
  - destruct H as [?| ->]; [done |]. exists ({[n]} ∪ nets).
    split; [done |]. split; [apply union_subseteq_r |].
    split; [| done]. apply elem_of_union_l. by apply elem_of_singleton.
Qed.

Lemma dir_exists_false st name :
  dir_exists st name = false → name ≠ "" ∧ instance_dirs st !! name = None.
Proof.
  unfold dir_exists. intros [H1 H2]%orb_false_iff.
  apply bool_decide_eq_false in H1, H2. split; [done |].
  destruct (instance_dirs st !! name) eqn:E; [| done].
  exfalso. apply H2. by eexists.
Qed.

Lemma create_instance_success env name a2 a3 a4 st :
  dir_exists st name = false →
  valid_webserver (Shell.default_to (DEFAULT_WEBSERVER env) a4) = true →
  engine_accepts env st →
  let r := create_instance env name a2 a3 a4 st in
  r.1 = 0
  ∧ workspace_config r.2 =
      (save_instance_to_config env name (get_next_port (workspace_config st))
         (Shell.default_to (DEFAULT_WEBSERVER env) a4)
         (php_full_version (Shell.default_to (DEFAULT_PHP_VERSION env) a3))
         (mysql_full_version (Shell.default_to (DEFAULT_MYSQL_VERSION env) a2))
         (workspace_config st)).2
  ∧ instance_dirs r.2 = <[name := created_dir env name a2 a3 a4 st]> (instance_dirs st)
  ∧ (networks st ⊆ networks r.2 ∧ next_network st ∈ networks r.2
     ∧ "wp-shared" ∈ networks r.2
     ∧ (next_network st ∈ networks st → "wp-shared" ∈ networks st →
        networks r.2 = networks st))
  ∧ running r.2 = running st
  ∧ tmp_clone_db r.2 = tmp_clone_db st.
Proof.
  intros Hdir Hweb [Hnet Hshared]. unfold create_instance.
  rewrite Hdir, Hweb. simpl.
  destruct (dir_exists_false _ _ Hdir) as [_ Hnone].
  unfold instance_id. rewrite map_size_insert_None by done.
  fold (next_network st).
  destruct (ensure_network_Some (network_create_ok env) (next_network st)
              (networks st) Hnet) as (nets1 & -> & Hsub1 & Hin1 & Hsame1).
  destruct (ensure_network_Some (shared_create_ok env) "wp-shared" nets1)
    as (nets2 & -> & Hsub2 & Hin2 & Hsame2).
  { destruct Hshared as [?|?]; [left; by apply Hsub1 | by right]. }
  assert (Hnets : networks st ⊆ nets2 ∧ next_network st ∈ nets2
     ∧ "wp-shared" ∈ nets2
     ∧ (next_network st ∈ networks st → "wp-shared" ∈ networks st →
        nets2 = networks st)).
  { split; [by etrans |]. split; [by apply Hsub2 |]. split; [done |].
    intros H1 H2. rewrite Hsame2; [by apply Hsame1 |].
    by rewrite (Hsame1 H1). }
  unfold created_dir, created_info.
  destruct (workspace_config st) as [doc|] eqn:E; simpl;
    rewrite insert_insert_eq; done.
Qed.

Lemma get_next_port_append_only_witness :
  Forall (λ p, p < Shell.INT64_MAX) (assigned_ports sample_doc)
  ∧ get_next_port (Some sample_doc) = 8005.
Proof.
  assert (H : Forall (λ p, p < Shell.INT64_MAX) (assigned_ports sample_doc)).
  { replace (assigned_ports sample_doc) with [8004; 8001]
      by (vm_compute; reflexivity).
    repeat constructor. }
  split; [exact H |].
  destruct (get_next_port_append_only sample_doc H) as [[-> _] _].
  reflexivity.
Defined.

Lemma port_uniqueness_invariant_witness :
  ports_unique (session (take 4 sample_cmds) (empty_workspace "")).
Proof.
  apply (port_uniqueness_invariant "" sample_cmds 4).
  unfold INSTANCE_PORT_START, Shell.INT64_MAX. simpl. lia.
Defined.

(** ** Rejections *)

Lemma default_to_nonempty d x : d ≠ "" → Shell.default_to d x ≠ "".
Proof. unfold Shell.default_to. by case_decide. Qed.

Lemma default_to_idem d d' x :
  d' ≠ "" → Shell.default_to d (Shell.default_to d' x) = Shell.default_to d' x.
Proof.
  intros Hd. pose proof (default_to_nonempty d' x Hd).
  unfold Shell.default_to at 1. by case_decide.
Qed.

Lemma create_instance_rejects env name a2 a3 a4 st :
  dir_exists st name = true
  ∨ valid_webserver (Shell.default_to (DEFAULT_WEBSERVER env) a4) = false →
  create_instance env name a2 a3 a4 st = (1, st).
Proof.
  unfold create_instance. intros [H|H].
  - by rewrite H.
  - rewrite H. by destruct (dir_exists st name).
Qed.

Lemma main_create env args st :
  arg 0 args = "create" → arg 1 args ≠ "" →
  main env args st =
    create_instance env (arg 1 args) (Shell.default_to "80" (arg 2 args))
      (Shell.default_to "83" (arg 3 args))
      (Shell.default_to "nginx" (arg 4 args)) st.
Proof. intros H0 H1. unfold main. rewrite H0. by repeat case_decide. Qed.

(** C4.  A create command whose instance directory exists already, or
    whose webserver is neither nginx nor apache, exits 1 and leaves the
    whole state as it was: the workspace config and every instance
    directory with it. *)
Theorem create_rejects_without_side_effects (env : Env)
    (args : list string) (st : State)
    (Hcmd : arg 0 args = "create")
    (Hbad : dir_exists st (arg 1 args) = true
            ∨ valid_webserver (Shell.default_to "nginx" (arg 4 args)) = false) :
  main env args st = (1, st).
Proof.
  destruct (decide (arg 1 args = "")) as [He|Hne].
  - unfold main. rewrite Hcmd, He. by repeat case_decide.
  - rewrite main_create by done. apply create_instance_rejects.
    by rewrite default_to_idem.
Qed.

Lemma create_rejects_without_side_effects_witness :
  let st := (main sample_env ["create"; "alpha"] (empty_workspace "")).2 in
  main sample_env' ["create"; "alpha"; "57"; "74"; "apache"] st = (1, st)
  ∧ main sample_env' ["create"; "delta"; "80"; "83"; "caddy"] st = (1, st).
Proof.
  split.
  - apply (create_rejects_without_side_effects sample_env'
             ["create"; "alpha"; "57"; "74"; "apache"]); [reflexivity |].
    left. vm_compute. reflexivity.
  - apply (create_rejects_without_side_effects sample_env'
             ["create"; "delta"; "80"; "83"; "caddy"]); [reflexivity |].
    right. vm_compute. reflexivity.
Defined.

(** ** Names, networks and a missing config file *)

Lemma created_dir_info env name a2 a3 a4 st :
  instance_info (created_dir env name a2 a3 a4 st)
  = Some (created_info env name a2 a3 a4 st).
Proof. done. Qed.

Lemma create_instance_info env name a2 a3 a4 st :
  dir_exists st name = false →
  valid_webserver (Shell.default_to (DEFAULT_WEBSERVER env) a4) = true →
  engine_accepts env st →
  info_of (create_instance env name a2 a3 a4 st).2 name
  = Some (created_info env name a2 a3 a4 st).
Proof.
  intros Hd Hw He.
  destruct (create_instance_success env name a2 a3 a4 st Hd Hw He)
    as (_ & _ & Hdirs & _).
  unfold info_of. rewrite Hdirs, lookup_insert_eq. done.
Qed.

(** A plain name is a name of the specification's format. *)
Lemma plain_name_valid name : plain_name name = true → valid_name name = true.
Proof.
  intros Hn. unfold plain_name in Hn. apply andb_true_iff in Hn as [_ Hn].
  destruct name as [|c rest]; [done |]. simpl in Hn.
  apply andb_true_iff in Hn as [Hc Hrest].
  unfold valid_name. rewrite bool_decide_eq_false_2 by done.
  simpl. rewrite Hrest, andb_true_r.
  unfold alnum in Hc. unfold name_char. cbv zeta in Hc |- *.
  by rewrite Hc.
Qed.

Lemma create_accepts_malformed_name :
  valid_name "my.site" = false
  ∧ let r := main sample_env ["create"; "my.site"; "80"; "83"; "nginx"]
               (empty_workspace "") in
    r.1 = 0
    ∧ r.2 ≠ empty_workspace ""
    ∧ NAME <$> info_of r.2 "my.site" = Some "my.site"
    ∧ entry_port <$> entry_of r.2 "my.site" = Some (Some 8001).
Proof.
  split; [reflexivity |]. simpl. split; [reflexivity |].
  split; [| split; vm_compute; reflexivity].
  intros H. apply (f_equal (λ s, info_of s "my.site")) in H.
  vm_compute in H. discriminate.
Qed.

(** C7, amended.  create does not look at the format of the name.  An
    empty name gets the usage text and exit 1.  A name that begins with
    a letter or a digit and goes on with letters, digits, [_], [-] and
    dots, so also one like [my.site] that does not match
    [[A-Za-z0-9_-]+], is created as soon as its directory does not
    exist, the webserver is nginx or apache and the engine provides the
    networks: exit 0, the metadata file written under that name, the
    entry recorded in the workspace config when there is one. *)
Theorem create_ignores_name_format (env : Env) (name a2 a3 a4 : string)
    (st : State)
    (Hname : dotted_name name = true)
    (Hstate : well_formed st = true)
    (Hdir : dir_exists st name = false)
    (Hweb : valid_webserver (Shell.default_to "nginx" a4) = true)
    (Hengine : engine_accepts env st) :
  main env ["create"; ""; a2; a3; a4] st = (1, st)
  ∧ let r := main env ["create"; name; a2; a3; a4] st in
    r.1 = 0
    ∧ NAME <$> info_of r.2 name = Some name
    ∧ (is_Some (workspace_config st) →
       entry_port <$> entry_of r.2 name
       = Some (Some (get_next_port (workspace_config st)))).
Proof.
  split; [done |].
  destruct (dir_exists_false _ _ Hdir) as [Hne _].
  rewrite main_create by done. unfold arg. simpl.
  assert (Hweb' : valid_webserver (Shell.default_to (DEFAULT_WEBSERVER env)
                    (Shell.default_to "nginx" a4)) = true)
    by by rewrite default_to_idem.
  destruct (create_instance_success env name (Shell.default_to "80" a2)
              (Shell.default_to "83" a3) (Shell.default_to "nginx" a4)
              st Hdir Hweb' Hengine)
    as (Hcode & Hcfg & _).
  split; [done |]. split.
  - by rewrite create_instance_info.
  - intros [doc Hdoc]. unfold entry_of. rewrite Hcfg, Hdoc. simpl.
    by rewrite lookup_insert_eq.
Qed.

Lemma create_ignores_name_format_witness :
  valid_name "my.site" = false
  ∧ let r := main sample_env ["create"; "my.site"; "80"; "83"; "nginx"]
               (empty_workspace "") in
    r.1 = 0 ∧ NAME <$> info_of r.2 "my.site" = Some "my.site"
    ∧ entry_port <$> entry_of r.2 "my.site" = Some (Some 8001).
Proof.
  split; [reflexivity |].
  destruct (create_ignores_name_format sample_env "my.site" "80" "83" "nginx"
              (empty_workspace "")) as (_ & H0 & H1 & H2).
  - reflexivity.
  - reflexivity.
  - reflexivity.
  - reflexivity.
  - split; right; reflexivity.
  - split; [exact H0 |]. split; [exact H1 |].
    apply H2. eexists. reflexivity.
Defined.

Ltac compute_decide :=
  match goal with
  | |- ?P => apply (bool_decide_unpack P); vm_compute; exact I
  end.

(** After alpha and beta were created and alpha removed, the directory
    count points at the network of beta; the next create goes through
    and wires gamma to it. *)
Lemma create_reuses_live_network :
  next_network after_removal = "wp-network-3"
  ∧ "wp-network-3" ∈ networks after_removal
  ∧ NETWORK <$> info_of after_removal "beta" = Some "wp-network-3"
  ∧ let r := main sample_env' ["create"; "gamma"; "57"; "74"; "apache"]
               after_removal in
    r.1 = 0
    ∧ NETWORK <$> info_of r.2 "gamma" = Some "wp-network-3"
    ∧ networks r.2 = networks after_removal.
Proof.
  split; [reflexivity |].
  split; [compute_decide |].
  split; [reflexivity |]. cbv zeta.
  split; [vm_compute; reflexivity |]. split; [vm_compute; reflexivity |].
  compute_decide.
Qed.

(** C3, amended.  When the network [wp-network-<ordinal>] computed
    during create exists already, create does not fail on it: the engine
    is not asked to create it, the instance is wired to the existing
    network under the same ordinal, and create exits 0 as soon as the
    shared network is there or can be created.  No network is added
    when the shared one exists too. *)
Theorem create_keeps_existing_network (env : Env) (name a2 a3 a4 : string)
    (st : State)
    (Hdir : dir_exists st name = false)
    (Hweb : valid_webserver (Shell.default_to (DEFAULT_WEBSERVER env) a4) = true)
    (Hnet : next_network st ∈ networks st)
    (Hshared : "wp-shared" ∈ networks st ∨ shared_create_ok env = true) :
  let r := create_instance env name a2 a3 a4 st in
  r.1 = 0
  ∧ NETWORK <$> info_of r.2 name = Some (next_network st)
  ∧ (instance_network <$> (instance_dirs r.2 !! name ≫= compose_file))
    = Some (next_network st)
  ∧ networks st ⊆ networks r.2
  ∧ ("wp-shared" ∈ networks st → networks r.2 = networks st).
Proof.
  assert (He : engine_accepts env st) by (split; [by left | done]).
  destruct (create_instance_success env name a2 a3 a4 st Hdir Hweb He)
    as (Hcode & _ & Hdirs & (Hsub & _ & _ & Hsame) & _).
  simpl. split; [done |]. split; [by rewrite create_instance_info |].
  split; [by rewrite Hdirs, lookup_insert_eq |].
  split; [done | by apply Hsame].
Qed.

Lemma create_keeps_existing_network_witness :
  let r := create_instance sample_env' "gamma" "57" "74" "apache"
             after_removal in
  r.1 = 0 ∧ NETWORK <$> info_of r.2 "gamma" = Some "wp-network-3".
Proof.
  destruct (create_keeps_existing_network sample_env' "gamma" "57" "74"
              "apache" after_removal) as (H0 & H1 & _).
  - reflexivity.
  - reflexivity.
  - compute_decide.
  - left. compute_decide.
  - split; [exact H0 | exact H1].
Defined.

(** ** A missing workspace config *)

Lemma config_step_None cfg' : config_step None cfg' → cfg' = None.
Proof. by destruct 1. Qed.

Lemma session_config_None cmds : ∀ st,
  workspace_config st = None → workspace_config (session cmds st) = None.
Proof.
  induction cmds as [|c cmds IH] using rev_ind; intros st Hst; [done |].
  rewrite session_snoc. apply config_step_None.
  rewrite <- (IH st Hst). apply main_config.
Qed.

(** C9.  With the workspace config file missing,
    [save_instance_to_config] returns 0 and writes nothing; a create
    that goes through leaves a directory with its metadata file and port
    8001 but no config file and no entry, and whatever commands follow,
    the config file stays missing and [get_next_port] keeps answering
    8001. *)
Theorem create_without_config_is_unrecorded (env : Env)
    (name a2 a3 a4 : string) (st : State)
    (Hcfg : workspace_config st = None)
    (Hdir : dir_exists st name = false)
    (Hweb : valid_webserver (Shell.default_to (DEFAULT_WEBSERVER env) a4) = true)
    (Hengine : engine_accepts env st) :
  (∀ env' n p w ph my,
     save_instance_to_config env' n p w ph my (workspace_config st) = (0, None))
  ∧ let r := create_instance env name a2 a3 a4 st in
    r.1 = 0
    ∧ is_Some (instance_dirs r.2 !! name)
    ∧ assigned_port r.2 name = Some 8001
    ∧ workspace_config r.2 = None
    ∧ entry_of r.2 name = None
    ∧ ∀ cmds,
        workspace_config (session cmds r.2) = None
        ∧ entry_of (session cmds r.2) name = None
        ∧ get_next_port (workspace_config (session cmds r.2)) = 8001.
Proof.
  split; [by rewrite Hcfg |].
  destruct (create_instance_success env name a2 a3 a4 st Hdir Hweb Hengine)
    as (Hcode & Hsave & Hdirs & _).
  rewrite Hcfg in Hsave. simpl in Hsave |- *.
  split; [done |]. split; [by rewrite Hdirs, lookup_insert_eq |].
  split.
  { unfold assigned_port. rewrite create_instance_info by done.
    unfold created_info. by rewrite Hcfg. }
  split; [done |]. split; [unfold entry_of; by rewrite Hsave |].
  intros cmds. pose proof (session_config_None cmds _ Hsave) as Hn.
  unfold entry_of. by rewrite Hn.
Qed.

Lemma create_without_config_is_unrecorded_witness :
  let r := create_instance sample_env "alpha" "80" "83" "nginx" no_config in
  assigned_port r.2 "alpha" = Some 8001
  ∧ get_next_port
      (workspace_config
         (session [(sample_env', ["create"; "beta"; "80"; "83"; "nginx"])] r.2))
    = 8001.
Proof.
  destruct (create_without_config_is_unrecorded sample_env "alpha" "80" "83"
              "nginx" no_config) as (_ & _ & _ & H1 & _ & _ & H2).
  - reflexivity.
  - reflexivity.
  - reflexivity.
  - split; right; reflexivity.
  - split; [exact H1 |].
    exact (proj2 (proj2 (H2 [(sample_env', ["create"; "beta"; "80"; "83"; "nginx"])]))).
Defined.

(** ** Clone *)

Lemma ensure_network_inv ok n nets nets' :
  ensure_network ok n nets = Some nets' → nets ⊆ nets' ∧ n ∈ nets'.
Proof.
  unfold ensure_network. case_decide as Hin.
  - by intros [= <-].
  - destruct ok; [| done]. intros [= <-]. split.
    + apply union_subseteq_r.
    + apply elem_of_union_l. by apply elem_of_singleton.
Qed.

(** What a create that exits 0 has done. *)
Lemma create_instance_inv env name a2 a3 a4 st st1 :
  create_instance env name a2 a3 a4 st = (0, st1) →
  dir_exists st name = false
  ∧ valid_webserver (Shell.default_to (DEFAULT_WEBSERVER env) a4) = true
  ∧ workspace_config st1 =
      (save_instance_to_config env name (get_next_port (workspace_config st))
         (Shell.default_to (DEFAULT_WEBSERVER env) a4)
         (php_full_version (Shell.default_to (DEFAULT_PHP_VERSION env) a3))
         (mysql_full_version (Shell.default_to (DEFAULT_MYSQL_VERSION env) a2))
         (workspace_config st)).2
  ∧ instance_dirs st1 = <[name := created_dir env name a2 a3 a4 st]> (instance_dirs st)
  ∧ next_network st ∈ networks st1.
Proof.
  unfold create_instance.
  destruct (dir_exists st name) eqn:Hdir; [done |].
  destruct (valid_webserver _) eqn:Hweb; [| done]. simpl.
  destruct (dir_exists_false _ _ Hdir) as [_ Hnone].
  unfold instance_id. rewrite map_size_insert_None by done.
  fold (next_network st).
  destruct (ensure_network _ (next_network st) _) as [nets1|] eqn:E1; [| done].
  destruct (ensure_network _ "wp-shared" _) as [nets2|] eqn:E2; [| done].
  assert (Hin : next_network st ∈ nets2).
  { apply ensure_network_inv in E1 as [_ Hin1].
    apply ensure_network_inv in E2 as [Hsub2 _]. by apply Hsub2. }
  unfold created_dir, created_info.
  destruct (workspace_config st) as [doc|] eqn:E; simpl;
    intros [= <-]; simpl; rewrite insert_insert_eq; done.
Qed.

Lemma mysql_accepts_set_wordpress w d pw :
  mysql_accepts (set_wordpress w d) pw = mysql_accepts d pw.
Proof. done. Qed.

(** What [copy_database] has done when it exits 0. *)
Lemma copy_database_inv src tgt pw sd td st st3 :
  src ≠ tgt →
  instance_dirs st !! src = Some sd →
  instance_dirs st !! tgt = Some td →
  copy_database src tgt pw sd td st = (0, st3) →
  mysql_accepts sd pw = true ∧ mysql_accepts td pw = true
  ∧ instance_dirs st3 = <[tgt := set_mysql (data_mysql sd) td]> (instance_dirs st)
  ∧ workspace_config st3 = workspace_config st
  ∧ networks st3 = networks st
  ∧ tmp_clone_db st3 = None.
Proof.
  intros Hne Hs Ht. unfold copy_database, mysqldump, mysql_import.
  destruct (compose_file sd); [| done].
  destruct (compose_file td); [| done]. simpl.
  rewrite Hs. simpl. destruct (mysql_accepts sd pw); [| done]. simpl.
  rewrite Ht. simpl. destruct (mysql_accepts td pw); [| done]. simpl.
  by intros [= <-].
Qed.

(** What a clone that exits 0 has done: the target directory is the one
    create made, with the payload the strategy asks for. *)
Lemma clone_instance_inv env src tgt a3 st st' :
  clone_instance env src tgt a3 st = (0, st') →
  ∃ sd si td',
    instance_dirs st !! src = Some sd ∧ instance_info sd = Some si
    ∧ src ≠ tgt ∧ dir_exists st tgt = false
    ∧ valid_webserver (Shell.default_to (DEFAULT_WEBSERVER env) (WEBSERVER si)) = true
    ∧ next_network st ∈ networks st'
    ∧ let strategy := Shell.default_to "symlink" a3 in
      let td := created_dir env tgt (MYSQL_VERSION si) (PHP_VERSION si)
                  (WEBSERVER si) st in
      valid_strategy strategy = true
      ∧ instance_dirs st' = <[tgt := td']> (instance_dirs st)
      ∧ instance_info td' = instance_info td
      ∧ compose_file td' = compose_file td
      ∧ data_wordpress td' =
          (if decide (strategy = "symlink") then Symlink src
           else data_wordpress sd)
      ∧ data_mysql td' =
          (if decide (strategy = "copy-all") then data_mysql sd else [])
      ∧ (strategy = "copy-all" →
         mysql_accepts sd (DB_ROOT_PASSWORD si) = true
         ∧ mysql_accepts td (DB_ROOT_PASSWORD si) = true)
      ∧ workspace_config st' =
          (save_instance_to_config env tgt (get_next_port (workspace_config st))
             (Shell.default_to (DEFAULT_WEBSERVER env) (WEBSERVER si))
             (php_full_version (Shell.default_to (DEFAULT_PHP_VERSION env) (PHP_VERSION si)))
             (mysql_full_version (Shell.default_to (DEFAULT_MYSQL_VERSION env) (MYSQL_VERSION si)))
             (workspace_config st)).2.
Proof.
  unfold clone_instance.
  destruct (instance_dirs st !! src) as [sd|] eqn:Hs; [| done].
  destruct (instance_info sd) as [si|] eqn:Hsi; [| done].
  destruct (dir_exists st tgt) eqn:Hdir; [done |].
  destruct (valid_strategy _) eqn:Hstrat; [| done]. simpl.
  destruct (create_instance _ _ _ _ _ _) as [code st1] eqn:Hcreate.
  case_decide as Hcode; [subst code | by intros [= ? ?]].
  apply create_instance_inv in Hcreate as (_ & Hweb & Hcfg & Hdirs & Hnet).
  destruct (dir_exists_false _ _ Hdir) as [_ Hnone].
  assert (Hne : src ≠ tgt) by (intros ->; by rewrite Hnone in Hs).
  rewrite Hdirs, lookup_insert_eq.
  set (td := created_dir env tgt _ _ _ st) in *.
  intros Hrun. exists sd, si.
  destruct (decide (Shell.default_to "symlink" a3 = "symlink")) as [Es|Es].
  { simpl in Hrun. injection Hrun as <-. exists (set_wordpress (Symlink src) td).
    simpl. rewrite ?Hdirs, ?insert_insert_eq, Es.
    repeat split; try done. }
  destruct (decide (Shell.default_to "symlink" a3 = "copy-all")) as [Ea|Ea].
  - destruct (copy_database _ _ _ _ _ _) as [code3 st3] eqn:Hdb.
    case_decide as Hcode3; [subst code3 | by injection Hrun].
    injection Hrun as <-.
    apply copy_database_inv in Hdb as (Hacc_s & Hacc_t & Hdirs3 & Hcfg3 & Hnet3 & _);
      [| done | | ]; simpl.
    + exists (set_mysql (data_mysql sd) (set_wordpress (data_wordpress sd) td)).
      simpl in *. rewrite Hdirs3, ?Hdirs, !insert_insert_eq, Hcfg3, Hnet3, Ea.
      repeat split; try done.
    + by rewrite ?Hdirs, lookup_insert_ne, lookup_insert_ne.
    + by rewrite lookup_insert_eq.
  - simpl in Hrun. injection Hrun as <-.
    exists (set_wordpress (data_wordpress sd) td).
    simpl. rewrite ?Hdirs, ?insert_insert_eq.
    destruct (decide (Shell.default_to "symlink" a3 = "copy-all")); [done |].
    repeat split; try done.
Qed.

(** What a create that does not exit 0 leaves: nothing, or the bare
    directory tree without compose file and metadata. *)
Lemma create_instance_failure env name a2 a3 a4 st code st1 :
  create_instance env name a2 a3 a4 st = (code, st1) → code ≠ 0 →
  workspace_config st1 = workspace_config st
  ∧ (instance_dirs st1 = instance_dirs st
     ∨ instance_dirs st !! name = None
       ∧ ∃ d, instance_info d = None ∧ data_mysql d = []
              ∧ instance_dirs st1 = <[name := d]> (instance_dirs st)).
Proof.
  unfold create_instance.
  destruct (dir_exists st name) eqn:Hdir; [intros [= <- <-]; auto |].
  destruct (negb _); [intros [= <- <-]; auto |]. simpl.
  destruct (dir_exists_false _ _ Hdir) as [_ Hnone].
  destruct (ensure_network _ _ _) as [nets1|].
  - destruct (ensure_network _ _ _) as [nets2|].
    + destruct (workspace_config st); simpl; by intros [= <- <-].
    + intros [= <- <-] _. simpl. split; [done |]. right. split; [done |].
      eexists. split; [| split]. 3: reflexivity. all: reflexivity.
  - intros [= <- <-] _. simpl. split; [done |]. right. split; [done |].
    eexists. split; [| split]. 3: reflexivity. all: reflexivity.
Qed.

Lemma copy_database_failure src tgt pw sd td st code st3 :
  copy_database src tgt pw sd td st = (code, st3) → code ≠ 0 →
  instance_dirs st3 = instance_dirs st
  ∧ workspace_config st3 = workspace_config st.
Proof.
  unfold copy_database, mysqldump, mysql_import.
  destruct (compose_file sd); [| by intros [= <- <-]].
  destruct (compose_file td); [| by intros [= <- <-]]. simpl.
  destruct (instance_dirs st !! src) as [d|]; simpl; [| by intros [= <- <-]].
  destruct (mysql_accepts d pw); simpl; [| by intros [= <- <-]].
  destruct (instance_dirs st !! tgt) as [d'|]; simpl; [| by intros [= <- <-]].
  destruct (mysql_accepts d' pw); simpl; by intros [= <- <-].
Qed.

(** A clone that does not exit 0 leaves the target, if it got as far as
    creating it, with the empty database create gave it. *)
Lemma clone_failure_database env src tgt a3 st code st' td :
  clone_instance env src tgt a3 st = (code, st') → code ≠ 0 →
  dir_exists st tgt = false →
  instance_dirs st' !! tgt = Some td → data_mysql td = [].
Proof.
  intros Hrun Hcode Hdir Htd.
  destruct (dir_exists_false _ _ Hdir) as [_ Hnone].
  unfold clone_instance in Hrun.
  destruct (instance_dirs st !! src) as [sd|] eqn:Hs;
    [| injection Hrun as <- <-; by rewrite Hnone in Htd].
  destruct (instance_info sd) as [si|];
    [| injection Hrun as <- <-; by rewrite Hnone in Htd].
  rewrite Hdir in Hrun.
  destruct (negb _); [injection Hrun as <- <-; by rewrite Hnone in Htd |].
  destruct (create_instance _ _ _ _ _ _) as [code1 st1] eqn:Hcreate.
  case_decide as Hc1.
  - subst code1.
    apply create_instance_inv in Hcreate as (_ & _ & _ & Hdirs & _).
    rewrite Hdirs, lookup_insert_eq in Hrun.
    set (td0 := created_dir env tgt _ _ _ st) in *.
    repeat case_decide; simpl in Hrun; try (by injection Hrun as <- <-).
    destruct (copy_database _ _ _ _ _ _) as [code3 st3] eqn:Hdb.
    case_decide; [by injection Hrun as <- <- |].
    injection Hrun as <- <-.
    apply copy_database_failure in Hdb as [Hd3 _]; [| done].
    rewrite Hd3 in Htd. simpl in Htd. rewrite lookup_insert_eq in Htd.
    by injection Htd as <-.
  - injection Hrun as <- <-.
    apply create_instance_failure in Hcreate as [_ [Hd|(_ & d & _ & Hd0 & Hd)]];
      [| | done].
    + by rewrite Hd, Hnone in Htd.
    + rewrite Hd, lookup_insert_eq in Htd. by injection Htd as <-.
Qed.

Lemma clone_instance_success env src tgt a3 st sd si :
  instance_dirs st !! src = Some sd → instance_info sd = Some si →
  dir_exists st tgt = false →
  valid_webserver (Shell.default_to (DEFAULT_WEBSERVER env) (WEBSERVER si)) = true →
  engine_accepts env st →
  Shell.default_to "symlink" a3 = "symlink"
  ∨ Shell.default_to "symlink" a3 = "copy-files" →
  (clone_instance env src tgt a3 st).1 = 0.
Proof.
  intros Hs Hsi Hdir Hweb Heng Hstrat. unfold clone_instance.
  rewrite Hs, Hsi, Hdir.
  assert (Hv : valid_strategy (Shell.default_to "symlink" a3) = true)
    by (destruct Hstrat as [-> | ->]; done).
  rewrite Hv. simpl.
  pose proof (create_instance_success env tgt (MYSQL_VERSION si)
                (PHP_VERSION si) (WEBSERVER si) st Hdir Hweb Heng)
    as (Hcode & _ & Hdirs & _).
  destruct (create_instance _ _ _ _ _ _) as [code st1]. simpl in *.
  subst code. rewrite Hdirs, lookup_insert_eq.
  destruct Hstrat as [-> | ->]; done.
Qed.

(** C5.  What the code does with the payload.  copy-all dumps the
    source database and then sends the dump to the target's MySQL with
    the root password of the source: whenever the password generated
    for the target differs from it, the import is refused, the clone
    ends with a non-zero status and the target's database stays empty.
    copy-files goes through and leaves the target with the source's
    files and the empty database. *)
Theorem clone_copy_all_import_refused (env : Env) (src tgt : string)
    (st : State) (sd : InstanceDir) (si : InstanceInfo)
    (Hs : instance_dirs st !! src = Some sd)
    (Hsi : instance_info sd = Some si)
    (Hdir : dir_exists st tgt = false)
    (Hpw : rand_db_root_password env ≠ DB_ROOT_PASSWORD si) :
  let r := clone_instance env src tgt "copy-all" st in
  r.1 ≠ 0
  ∧ (∀ td, instance_dirs r.2 !! tgt = Some td → data_mysql td = [])
  ∧ (valid_webserver (Shell.default_to (DEFAULT_WEBSERVER env) (WEBSERVER si)) = true →
     engine_accepts env st →
     let r' := clone_instance env src tgt "copy-files" st in
     r'.1 = 0
     ∧ ∃ td, instance_dirs r'.2 !! tgt = Some td
             ∧ data_mysql td = [] ∧ data_wordpress td = data_wordpress sd).
Proof.
  simpl.
  assert (Hfail : (clone_instance env src tgt "copy-all" st).1 ≠ 0).
  { destruct (clone_instance _ _ _ _ _) as [code st'] eqn:Hrun. simpl.
    intros ->. apply clone_instance_inv in Hrun
      as (sd' & si' & td' & Hs' & Hsi' & _ & _ & _ & _ & _ & _ & _ & _ & _ & _ & Hacc & _).
    rewrite Hs in Hs'. injection Hs' as <-.
    rewrite Hsi in Hsi'. injection Hsi' as <-.
    destruct (Hacc eq_refl) as [_ Htgt].
    unfold mysql_accepts in Htgt. simpl in Htgt.
    apply andb_true_iff in Htgt as [Htgt _].
    by apply bool_decide_eq_true in Htgt. }
  split; [done |]. split.
  - intros td Htd.
    destruct (clone_instance _ _ _ _ _) as [code st'] eqn:Hrun.
    by eapply clone_failure_database.
  - intros Hweb Heng.
    pose proof (clone_instance_success env src tgt "copy-files" st sd si
                  Hs Hsi Hdir Hweb Heng (or_intror eq_refl)) as Hok.
    split; [done |].
    destruct (clone_instance env src tgt "copy-files" st) as [code st'] eqn:Hrun.
    simpl in Hok. subst code.
    apply clone_instance_inv in Hrun
      as (sd' & si' & td' & Hs' & _ & _ & _ & _ & _ & _ & Hdirs & _ & _ & Hwp & Hdb & _).
    rewrite Hs in Hs'. injection Hs' as <-.
    exists td'. simpl. rewrite Hdirs, lookup_insert_eq. by repeat split.
Qed.

Lemma clone_copy_all_import_refused_witness :
  let r := clone_instance sample_env' "alpha" "beta" "copy-all" installed in
  r.1 ≠ 0
  ∧ (∀ td, instance_dirs r.2 !! "beta" = Some td → data_mysql td = [])
  ∧ data_mysql <$> instance_dirs installed !! "alpha" = Some sample_rows.
Proof.
  assert (Hs : ∃ sd si, instance_dirs installed !! "alpha" = Some sd
                        ∧ instance_info sd = Some si
                        ∧ DB_ROOT_PASSWORD si = "R4tY6uI8oP0aS2dF4gH6jK8lZ").
  { eexists _, _. split; [| split]; reflexivity. }
  destruct Hs as (sd & si & Hs & Hsi & Hpw).
  destruct (clone_copy_all_import_refused sample_env' "alpha" "beta" installed
              sd si Hs Hsi) as (H1 & H2 & _).
  - reflexivity.
  - rewrite Hpw. discriminate.
  - split; [exact H1 |]. split; [exact H2 | reflexivity].
Defined.

(** ** Running status *)

Lemma string_prefix_spec p s :
  String.prefix p s = true ↔ ∃ rest, s = p +:+ rest.
Proof.
  revert s. induction p as [|a p IH]; intros s.
  - destruct s; simpl; (split; [by eexists | done]).
  - destruct s as [|b s]; simpl.
    + split; [done | by intros [? ?]].
    + destruct (Ascii.ascii_dec a b) as [->|Hne].
      * rewrite IH. split; intros [rest Hr]; exists rest; [by rewrite Hr |].
        by injection Hr.
      * split; [done |]. intros [rest Hr]. by injection Hr as <-.
Qed.

Lemma string_app_assoc (a b c : string) : (a +:+ b) +:+ c = a +:+ b +:+ c.
Proof.
  induction a as [|x a IH]; [done |].
  change (String x ((a +:+ b) +:+ c) = String x (a +:+ b +:+ c)).
  by rewrite IH.
Qed.

Lemma is_running_spec name ps :
  is_running name ps = true ↔ ∃ rest, name +:+ "-" +:+ rest ∈ ps.
Proof.
  unfold is_running. rewrite existsb_exists. split.
  - intros (c & Hin & Hp). apply string_prefix_spec in Hp as [rest ->].
    exists rest. rewrite <- string_app_assoc. by apply list_elem_of_In.
  - intros [rest Hin]. exists (name +:+ "-" +:+ rest).
    split; [by apply list_elem_of_In |].
    apply string_prefix_spec. exists rest. by rewrite string_app_assoc.
Qed.

Lemma list_instances_row st row :
  row ∈ list_instances st →
  row_status row = status_of (row_name row) st
  ∧ ∃ dir d i, instance_dirs st !! dir = Some d ∧ instance_info d = Some i
               ∧ row_name row = NAME i.
Proof.
  unfold list_instances. intros ([dir d] & Hin & Hrow)%list_elem_of_omap.
  apply elem_of_map_to_list in Hin. unfold list_row in Hrow. simpl in Hrow.
  destruct (String.prefix "." dir); [done |].
  destruct (instance_info d) as [i|] eqn:Hi; [| done].
  simpl in Hrow. injection Hrow as <-. simpl. split; [done |].
  by exists dir, d, i.
Qed.

Lemma list_instances_has_row st dir d i :
  instance_dirs st !! dir = Some d → instance_info d = Some i →
  String.prefix "." dir = false →
  ∃ row, row ∈ list_instances st ∧ row_name row = NAME i
         ∧ row_status row = status_of (NAME i) st.
Proof.
  intros Hd Hi Hdot.
  exists {| row_name := NAME i;
            row_mysql := MYSQL_VERSION i;
            row_php := PHP_VERSION i;
            row_webserver := WEBSERVER i;
            row_network := NETWORK i;
            row_status := status_of (NAME i) st |}.
  split; [| split; reflexivity].
  unfold list_instances. apply list_elem_of_omap. exists (dir, d).
  split; [by apply elem_of_map_to_list |].
  unfold list_row. simpl. by rewrite Hdot, Hi.
Qed.

Lemma grep_literal_no_dot x :
  grep_literal x = true → String.prefix "." x = false.
Proof.
  destruct x as [|c rest]; [done |]. unfold grep_literal.
  intros Hg. simpl in Hg. apply andb_true_iff in Hg as [Hc _].
  change (String.prefix "." (String c rest))
    with (if Ascii.ascii_dec (Ascii.ascii_of_nat 46) c
          then String.prefix "" rest else false).
  destruct (Ascii.ascii_dec _ c) as [<-|]; [by vm_compute in Hc | done].
Qed.

(** C10.  For an instance [x] whose name grep reads literally, [info]
    and [list] both report it, and report it running exactly when some
    running container is named [x-...]; so the containers
    [x-suffix-service] of an instance [x-suffix] make [x] running,
    whatever the state of its own. *)
Theorem running_status_is_prefix_match (st : State) (x : string)
    (d : InstanceDir) (i : InstanceInfo)
    (Hx : grep_literal x = true)
    (Hstate : well_formed st = true)
    (Hd : instance_dirs st !! x = Some d)
    (Hi : instance_info d = Some i)
    (Hname : NAME i = x) :
  let up := is_running x (running st) in
  (up = true ↔ ∃ rest, x +:+ "-" +:+ rest ∈ running st)
  ∧ show_info x st = (0, Some (i, up))
  ∧ (∃ row, row ∈ list_instances st ∧ row_name row = x
            ∧ row_status row = if up then "running" else "stopped")
  ∧ (∀ row, row ∈ list_instances st → row_name row = x →
       row_status row = if up then "running" else "stopped")
  ∧ (∀ suffix service,
       (x +:+ "-" +:+ suffix) +:+ "-" +:+ service ∈ running st →
       show_info x st = (0, Some (i, true))
       ∧ (∃ row, row ∈ list_instances st ∧ row_name row = x
                 ∧ row_status row = "running")
       ∧ (∀ row, row ∈ list_instances st → row_name row = x →
            row_status row = "running")).
Proof.
  cbv zeta.
  pose proof (is_running_spec x (running st)) as Hspec.
  assert (Hshow : show_info x st = (0, Some (i, is_running x (running st)))).
  { unfold show_info. by rewrite Hd, Hi, Hname. }
  assert (Hhas : ∃ row, row ∈ list_instances st ∧ row_name row = x
            ∧ row_status row = if is_running x (running st)
                               then "running" else "stopped").
  { destruct (list_instances_has_row st x d i Hd Hi (grep_literal_no_dot x Hx))
      as (row & Hin & Hrn & Hrs).
    exists row. rewrite Hname in Hrn, Hrs. by repeat split. }
  assert (Hrow : ∀ row, row ∈ list_instances st → row_name row = x →
            row_status row = if is_running x (running st)
                             then "running" else "stopped").
  { intros row [Hst _]%list_instances_row Hrn.
    by rewrite Hst, Hrn. }
  split; [done |]. split; [done |]. split; [done |]. split; [done |].
  intros suffix service Hin.
  assert (Hrun : is_running x (running st) = true).
  { apply Hspec. exists (suffix +:+ "-" +:+ service).
    by rewrite <- (string_app_assoc x), <- (string_app_assoc (x +:+ "-")),
               (string_app_assoc x). }
  rewrite Hrun in Hshow, Hhas, Hrow. done.
Qed.

Lemma running_status_is_prefix_match_witness :
  running prefix_demo = ["foo-bar-mysql"; "foo-bar-php"; "foo-bar-apache"]
  ∧ (∃ i, show_info "foo" prefix_demo = (0, Some (i, true)))
  ∧ ∃ row, row ∈ list_instances prefix_demo ∧ row_name row = "foo"
           ∧ row_status row = "running".
Proof.
  assert (Hfoo : ∃ d i, instance_dirs prefix_demo !! "foo" = Some d
                        ∧ instance_info d = Some i ∧ NAME i = "foo").
  { eexists _, _. split; [vm_compute; reflexivity |]. split; reflexivity. }
  destruct Hfoo as (d & i & Hd & Hi & Hname).
  assert (Hstate : well_formed prefix_demo = true) by (vm_compute; reflexivity).
  destruct (running_status_is_prefix_match prefix_demo "foo" d i eq_refl
              Hstate Hd Hi Hname) as (_ & _ & _ & _ & H).
  destruct (H "bar" "php") as (H1 & H2 & _).
  - apply list_elem_of_In. vm_compute. right. left. reflexivity.
  - split; [vm_compute; reflexivity |].
    split; [exists i; exact H1 | exact H2].
Defined.

(** ** Loading a missing configuration file *)

(** On a first run (no file at all) the workspace loader returns null,
    not an object of any shape. *)
Lemma loadWorkspaceConfig_missing_is_null :
  Cli.loadWorkspaceConfig ∅ "/home/dev/site" = Cli.Return Cli.JNull
  ∧ ∀ members,
      Cli.loadWorkspaceConfig ∅ "/home/dev/site"
      ≠ Cli.Return (Cli.JObject members).
Proof. split; [reflexivity | discriminate]. Qed.

(** C8, amended.  When the workspace file [wp-dind-workspace.json] is
    missing, [loadWorkspaceConfig] returns null without throwing; the
    loader that answers a missing file with a default object is
    [loadConfig], for the per-user CLI config, and that object holds a
    null [defaultImagePath] and an empty [instances] mapping. *)
Theorem loaders_on_missing_file (fs : gmap string Cli.file)
    (targetDir CONFIG_FILE : string)
    (Hws : fs !! Cli.path_join targetDir "wp-dind-workspace.json" = None)
    (Hcfg : fs !! CONFIG_FILE = None) :
  Cli.loadWorkspaceConfig fs targetDir = Cli.Return Cli.JNull
  ∧ ∃ v, Cli.loadConfig fs CONFIG_FILE = Cli.Return v
         ∧ Cli.member "instances" v = Some (Cli.JObject [])
         ∧ Cli.member "defaultImagePath" v = Some Cli.JNull
         ∧ Cli.member "stack" v = None.
Proof.
  unfold Cli.loadWorkspaceConfig, Cli.loadConfig. rewrite Hws, Hcfg.
  split; [done |]. eexists. split; [done |]. by repeat split.
Qed.

Lemma loaders_on_missing_file_witness :
  Cli.loadWorkspaceConfig ∅ "/home/dev/site" = Cli.Return Cli.JNull.
Proof.
  destruct (loaders_on_missing_file ∅ "/home/dev/site"
              "/home/dev/.wp-dind-config.json") as [H _].
  - reflexivity.
  - reflexivity.
  - exact H.
Defined.

(** ** The effect of a command on metadata and config *)

Lemma info_of_insert st st' name d n :
  instance_dirs st' = <[name := d]> (instance_dirs st) →
  info_of st' n = if decide (name = n) then instance_info d else info_of st n.
Proof.
  intros Hd. unfold info_of. rewrite Hd, lookup_insert.
  by case_decide.
Qed.

Lemma create_instance_effect b env name a2 a3 a4 st :
  effect b st (create_instance env name a2 a3 a4 st).2.
Proof.
  destruct (create_instance env name a2 a3 a4 st) as [code st1] eqn:Hrun. simpl.
  destruct (decide (code = 0)) as [->|Hcode].
  - apply create_instance_inv in Hrun as (Hdir & _ & Hcfg & Hdirs & _).
    destruct (dir_exists_false _ _ Hdir) as [_ Hnone].
    eapply effect_create; [done | exact Hcfg | | |].
    + rewrite (info_of_insert _ _ _ _ _ Hdirs). by case_decide.
    + intros n Hn. rewrite (info_of_insert _ _ _ _ _ Hdirs). by case_decide.
    + by rewrite Hdirs, map_size_insert_None.
  - apply create_instance_failure in Hrun
      as [Hcfg [Hd|(Hnone & d & Hi & _ & Hd)]]; [| | done].
    + apply effect_keep; [done | | by rewrite Hd].
      intros n. unfold info_of. by rewrite Hd.
    + apply effect_keep; [done | |].
      * intros n. rewrite (info_of_insert _ _ _ _ _ Hd). case_decide; [| done].
        subst n. unfold info_of. by rewrite Hnone, Hi.
      * rewrite Hd, map_size_insert_None by done. lia.
Qed.

Lemma effect_same_infos b st0 st st' :
  effect b st0 st →
  workspace_config st' = workspace_config st →
  (∀ n, info_of st' n = info_of st n) →
  size (instance_dirs st') = size (instance_dirs st) →
  effect b st0 st'.
Proof.
  intros He Hcfg Hinfo Hsize. destruct He as [H1 H2 H3|??????????|?????].
  - apply effect_keep; [congruence | | lia]. intros n. by rewrite Hinfo.
  - eapply effect_create; [done | by rewrite Hcfg | by rewrite Hinfo | |].
    + intros n Hn. rewrite Hinfo. auto.
    + by rewrite Hsize.
  - eapply effect_remove; [done | by rewrite Hcfg | by rewrite Hinfo |].
    intros n Hn. rewrite Hinfo. auto.
Qed.

Lemma effect_refl b st : effect b st st.
Proof. by apply effect_keep. Qed.

(** Replacing the payload of an existing directory changes neither its
    metadata nor the directory count. *)
Lemma same_infos_insert st name d d' :
  instance_dirs st !! name = Some d → instance_info d' = instance_info d →
  (∀ n, (<[name := d']> (instance_dirs st) !! n ≫= instance_info) = info_of st n)
  ∧ size (<[name := d']> (instance_dirs st)) = size (instance_dirs st).
Proof.
  intros Hd Hi. split.
  - intros n. unfold info_of. rewrite lookup_insert. case_decide; [| done].
    subst n. rewrite Hd. simpl. by rewrite Hi.
  - apply map_size_insert_Some. by eexists.
Qed.

Lemma effect_payload b st0 st st' tgt td d' :
  effect b st0 st →
  instance_dirs st !! tgt = Some td →
  workspace_config st' = workspace_config st →
  instance_dirs st' = <[tgt := d']> (instance_dirs st) →
  instance_info d' = instance_info td →
  effect b st0 st'.
Proof.
  intros He Htd Hcfg Hdirs Hinfo.
  destruct (same_infos_insert st tgt td d' Htd Hinfo) as [Hi Hsize].
  eapply effect_same_infos; [exact He | done | |].
  - intros n. unfold info_of at 1. rewrite Hdirs. apply Hi.
  - by rewrite Hdirs.
Qed.

(** Whatever its outcome, [copy_database] touches at most the database
    of the target directory. *)
Lemma copy_database_dirs src tgt pw sd td st code st3 :
  instance_dirs st !! tgt = Some td →
  copy_database src tgt pw sd td st = (code, st3) →
  workspace_config st3 = workspace_config st
  ∧ ∃ d', instance_dirs st3 = <[tgt := d']> (instance_dirs st)
          ∧ instance_info d' = instance_info td.
Proof.
  intros Ht. unfold copy_database, mysqldump, mysql_import.
  assert (Hsame : ∃ d', instance_dirs st = <[tgt := d']> (instance_dirs st)
                        ∧ instance_info d' = instance_info td).
  { exists td. by rewrite insert_id. }
  destruct (compose_file sd); [| by intros [= <- <-]].
  destruct (compose_file td); [| by intros [= <- <-]]. simpl.
  destruct (instance_dirs st !! src) as [d|]; simpl; [| by intros [= <- <-]].
  destruct (mysql_accepts d pw); simpl; [| by intros [= <- <-]].
  rewrite Ht. simpl.
  destruct (mysql_accepts td pw); simpl; [| by intros [= <- <-]].
  intros [= <- <-]. simpl. split; [done |]. by eexists.
Qed.

Lemma clone_instance_effect b env src tgt a3 st :
  effect b st (clone_instance env src tgt a3 st).2.
Proof.
  unfold clone_instance.
  destruct (instance_dirs st !! src) as [sd|]; [| apply effect_refl].
  destruct (instance_info sd) as [si|]; [| apply effect_refl].
  destruct (dir_exists st tgt); [apply effect_refl |].
  destruct (negb _); [apply effect_refl |].
  pose proof (create_instance_effect b env tgt (MYSQL_VERSION si)
                (PHP_VERSION si) (WEBSERVER si) st) as Hc.
  destruct (create_instance _ _ _ _ _ _) as [code st1]. simpl in Hc.
  case_decide; [| done].
  destruct (instance_dirs st1 !! tgt) as [td|] eqn:Htd; [| done].
  set (st2 := docker_stop (all_containers td) st1).
  assert (Hput : ∀ w cs, effect b st
            (docker_start cs
               (set_dirs (<[tgt := set_wordpress w td]> (instance_dirs st2)) st2))).
  { intros w cs. by eapply (effect_payload b st st1 _ tgt td (set_wordpress w td)). }
  destruct (decide (Shell.default_to "symlink" a3 = "symlink")); [apply Hput |].
  destruct (decide (Shell.default_to "symlink" a3 = "copy-all")); [| apply Hput].
  destruct (copy_database _ _ _ _ _ _) as [code3 st3] eqn:Hdb.
  apply copy_database_dirs with (td := set_wordpress (data_wordpress sd) td)
    in Hdb as (Hcfg3 & d' & Hdirs3 & Hinfo3);
    [| simpl; by rewrite lookup_insert_eq].
  simpl in Hdirs3. rewrite insert_insert_eq in Hdirs3.
  case_decide; simpl;
    by eapply (effect_payload b st st1 _ tgt td d').
Qed.

Lemma remove_instance_effect env name st :
  effect true st (remove_instance env name st).2.
Proof.
  unfold remove_instance.
  destruct (instance_dirs st !! name) as [d|]; [| apply effect_refl].
  case_decide; [| apply effect_refl].
  destruct (compose_file d); [| apply effect_refl].
  assert (Hrun : ∀ st1 : State,
            (let '(code, cfg) :=
               remove_instance_from_config name (workspace_config st1) in
             (code, set_config cfg st1)).2
            = set_config (remove_instance_from_config name (workspace_config st1)).2 st1).
  { intros st1. by destruct (workspace_config st1). }
  rewrite Hrun. simpl.
  apply (effect_remove true _ _ name); [done | done | |].
  - unfold info_of. simpl. by rewrite lookup_delete_eq.
  - intros n Hn. unfold info_of. simpl. by rewrite lookup_delete_ne.
Qed.

Lemma effect_weaken st st' : effect false st st' → effect true st st'.
Proof.
  destruct 1 as [| |????]; [by apply effect_keep | by eapply effect_create | done].
Qed.

Lemma main_effect env args st :
  effect (bool_decide (arg 0 args = "remove")) st (main env args st).2.
Proof.
  unfold main, start_instance, stop_instance.
  destruct (decide (arg 0 args = "remove")) as [Hr|Hr].
  - rewrite Hr. rewrite bool_decide_eq_true_2 by done.
    repeat case_decide; try done; simpl;
      [apply effect_refl | apply remove_instance_effect].
  - rewrite bool_decide_eq_false_2 by done.
    repeat case_decide; try done; simpl;
      auto using effect_refl, create_instance_effect, clone_instance_effect.
    + destruct (instance_dirs st !! _) as [d|]; [| apply effect_refl].
      destruct (instance_info d), (compose_file d); by apply effect_keep.
    + destruct (instance_dirs st !! _) as [d|]; [| apply effect_refl].
      destruct (compose_file d); by apply effect_keep.
Qed.

(** ** Metadata and config stay in step *)

Lemma effect_ports_recorded b st st' :
  effect b st st' →
  is_Some (workspace_config st) → ports_recorded st →
  is_Some (workspace_config st') ∧ ports_recorded st'.
Proof.
  intros He [doc Hdoc] Hrec.
  destruct He as [Hcfg Hinfo _|env name a2 a3 a4 Hnone Hcfg Hnew Hold _
                  |name _ Hcfg Hgone Hold].
  - split; [rewrite Hcfg, Hdoc; by eexists |].
    intros n i Hi. rewrite Hinfo in Hi.
    destruct (Hrec n i Hi) as (e & He & Hp). exists e. split; [| done].
    unfold entry_of in *. by rewrite Hcfg.
  - rewrite Hdoc in Hcfg. simpl in Hcfg.
    split; [rewrite Hcfg; by eexists |].
    intros n i Hi. unfold entry_of. rewrite Hcfg. simpl.
    destruct (decide (n = name)) as [->|Hne].
    + rewrite lookup_insert_eq. eexists. split; [done |]. simpl.
      rewrite Hnew in Hi. injection Hi as <-.
      unfold created_info. simpl. by rewrite Hdoc.
    + rewrite lookup_insert_ne by done. rewrite Hold in Hi by done.
      destruct (Hrec n i Hi) as (e & He & Hp). exists e. split; [| done].
      unfold entry_of in He. rewrite Hdoc in He. simpl in He.
      destruct (doc_instances doc); simpl in *; done.
  - rewrite Hdoc in Hcfg. simpl in Hcfg.
    split; [rewrite Hcfg; by eexists |].
    intros n i Hi. unfold entry_of. rewrite Hcfg. simpl.
    destruct (decide (n = name)) as [->|Hne]; [by rewrite Hgone in Hi |].
    rewrite Hold in Hi by done.
    destruct (Hrec n i Hi) as (e & He & Hp). exists e. split; [| done].
    unfold entry_of in He. rewrite Hdoc in He. simpl in He.
    destruct (doc_instances doc); simpl in *; [| done].
    by rewrite lookup_delete_ne.
Qed.

(** In a workspace built up from an empty one the config file stays in
    place and records every metadata file under its port, and the
    recorded ports stay below the range start plus the number of
    commands: the conditions under which a clone gets a port of its
    own. *)
Lemma session_ports_recorded other cmds :
  is_Some (workspace_config (session cmds (empty_workspace other)))
  ∧ ports_recorded (session cmds (empty_workspace other)).
Proof.
  induction cmds as [|c cmds IH] using rev_ind.
  - split; [by eexists |]. intros n i Hi. unfold info_of in Hi. simpl in Hi.
    by rewrite lookup_empty in Hi.
  - rewrite session_snoc. destruct IH as [Hs Hr].
    eapply effect_ports_recorded; [apply main_effect | done | done].
Qed.

Lemma session_ports_below other cmds :
  INSTANCE_PORT_START + Z.of_nat (length cmds) ≤ Shell.INT64_MAX →
  ports_below (INSTANCE_PORT_START + Z.of_nat (length cmds))
    (workspace_config (session cmds (empty_workspace other))).
Proof.
  intros Hlen. apply session_invariant; [| | done].
  - intros doc m n e p [= <-] [= <-] Hn. by rewrite lookup_empty in Hn.
  - intros doc m n1 n2 e1 e2 p [= <-] [= <-] Hn. by rewrite lookup_empty in Hn.
Qed.


(** ** Clone independence *)




(** * Further properties of the manager *)

(** ** Allocation in sequence *)

Lemma assigned_ports_elem doc p :
  p ∈ assigned_ports doc ↔
  ∃ m n e, doc_instances doc = Some m ∧ m !! n = Some e ∧ entry_port e = Some p.
Proof.
  unfold assigned_ports, doc_entries. split.
  - destruct (doc_instances doc) as [m|] eqn:Hm.
    + intros ([n e] & Hin & Hp)%list_elem_of_omap.
      apply elem_of_map_to_list in Hin. by exists m, n, e.
    + by intros ?%elem_of_nil.
  - intros (m & n & e & -> & Hn & Hp). apply list_elem_of_omap.
    exists (n, e). split; [by apply elem_of_map_to_list | done].
Qed.

(** Two documents with the same set of recorded ports get the same next
    port. *)
Lemma get_next_port_ext doc doc' :
  Forall (λ p, p < Shell.INT64_MAX) (assigned_ports doc) →
  (∀ p, p ∈ assigned_ports doc' ↔ p ∈ assigned_ports doc) →
  get_next_port (Some doc') = get_next_port (Some doc).
Proof.
  intros Hall Hsame. simpl.
  assert (Hall' : Forall (λ p, p < Shell.INT64_MAX) (assigned_ports doc')).
  { apply Forall_forall. intros p Hp. apply Hsame in Hp.
    by apply (proj1 (Forall_forall _ _) Hall). }
  destruct (scan_ports_spec _ Hall) as [-> _].
  destruct (scan_ports_spec _ Hall') as [-> _].
  destruct (next_port_spec_least INSTANCE_PORT_START (assigned_ports doc))
    as (H1 & H2 & H3).
  destruct (next_port_spec_least INSTANCE_PORT_START (assigned_ports doc'))
    as (H1' & H2' & H3').
  apply Z.le_antisymm.
  - apply H3'; [done |]. intros p Hp. apply H2. by apply Hsame.
  - apply H3; [done |]. intros p Hp. apply H2'. by apply Hsame.
Qed.

(** X1.  Recording an instance under the port [get_next_port] returned
    moves the next port up by exactly one, whatever name the entry is
    saved under (a fresh one or one that replaces an entry). *)
Theorem consecutive_creates_get_consecutive_ports (env : Env)
    (name web php mysql : string) (doc : WorkspaceDoc)
    (Hports : Forall (λ p, p < Shell.INT64_MAX - 1) (assigned_ports doc)) :
  get_next_port
    (save_instance_to_config env name (get_next_port (Some doc)) web php mysql
       (Some doc)).2
  = get_next_port (Some doc) + 1.
Proof.
  assert (Hsmall : Forall (λ p, p < Shell.INT64_MAX) (assigned_ports doc)).
  { eapply Forall_impl; [exact Hports |]. simpl. intros p Hp. lia. }
  assert (Hbelow : ports_below (Shell.INT64_MAX - 1) (Some doc)).
  { intros doc0 m n e p [= <-] Hm Hn Hp.
    apply (proj1 (Forall_forall _ _) Hports). by eapply assigned_ports_lookup. }
  destruct (get_next_port_fresh (Shell.INT64_MAX - 1) doc Hbelow) as [Hle Hfresh].
  { unfold INSTANCE_PORT_START, Shell.INT64_MAX. lia. }
  set (port := get_next_port (Some doc)) in *.
  assert (Hge : INSTANCE_PORT_START ≤ port).
  { unfold port. simpl. destruct (scan_ports_spec _ Hsmall) as [-> _].
    apply next_port_spec_least. }
  simpl save_instance_to_config. cbv beta iota. simpl snd.
  set (doc' := {| doc_other := doc_other doc;
                  doc_instances := Some (<[name := new_entry env port web php mysql]>
                                           (default ∅ (doc_instances doc))) |}).
  assert (Hnew : port ∈ assigned_ports doc').
  { apply assigned_ports_elem. eexists _, name, _.
    split; [done |]. split; [apply lookup_insert_eq | done]. }
  assert (Hold : ∀ p, p ∈ assigned_ports doc' → p ≤ port).
  { intros p (m & n & e & [= <-] & Hn & Hp)%assigned_ports_elem.
    destruct (decide (name = n)) as [->|Hne].
    - rewrite lookup_insert_eq in Hn. injection Hn as <-. simpl in Hp.
      injection Hp as <-. lia.
    - rewrite lookup_insert_ne in Hn by done.
      assert (p < port); [| lia]. apply Hfresh. apply assigned_ports_elem.
      destruct (doc_instances doc) as [m|]; simpl in Hn.
      + by exists m, n, e.
      + by rewrite lookup_empty in Hn. }
  assert (Hall' : Forall (λ p, p < Shell.INT64_MAX) (assigned_ports doc')).
  { apply Forall_forall. intros p Hp. specialize (Hold p Hp). lia. }
  unfold get_next_port at 1.
  destruct (scan_ports_spec _ Hall') as [-> _].
  destruct (next_port_spec_least INSTANCE_PORT_START (assigned_ports doc'))
    as (H1 & H2 & H3).
  apply Z.le_antisymm.
  - apply H3; [lia |]. intros p Hp. specialize (Hold p Hp). lia.
  - specialize (H2 port Hnew). lia.
Qed.

Lemma consecutive_creates_get_consecutive_ports_witness :
  get_next_port
    (save_instance_to_config sample_env "news" (get_next_port (Some sample_doc))
       "nginx" "8.3" "8.0" (Some sample_doc)).2
  = get_next_port (Some sample_doc) + 1.
Proof.
  apply (consecutive_creates_get_consecutive_ports sample_env "news" "nginx"
           "8.3" "8.0" sample_doc).
  replace (assigned_ports sample_doc) with [8004; 8001]
    by (vm_compute; reflexivity).
  unfold Shell.INT64_MAX. repeat constructor.
Defined.

(** X2.  The port scan reads only entries that carry a port: an entry
    without one (null, false or no [port] member) leaves the next port
    where it was, and a document without [.instances] allocates from
    the range start like a missing file. *)
Theorem port_scan_skips_entries_without_port (doc : WorkspaceDoc)
    (m : gmap string InstanceEntry) (name : string) (e : InstanceEntry)
    (Hm : doc_instances doc = Some m)
    (Hfresh : m !! name = None)
    (He : entry_port e = None)
    (Hports : Forall (λ p, p < Shell.INT64_MAX) (assigned_ports doc)) :
  get_next_port
    (Some {| doc_other := doc_other doc;
             doc_instances := Some (<[name := e]> m) |})
  = get_next_port (Some doc)
  ∧ get_next_port
      (Some {| doc_other := doc_other doc; doc_instances := None |})
    = INSTANCE_PORT_START
  ∧ get_next_port None = INSTANCE_PORT_START.
Proof.
  split; [| done]. apply get_next_port_ext; [done |].
  intros p. rewrite !assigned_ports_elem. simpl. split.
  - intros (m' & n & e' & [= <-] & Hn & Hp).
    destruct (decide (name = n)) as [->|Hne].
    + rewrite lookup_insert_eq in Hn. injection Hn as <-. congruence.
    + rewrite lookup_insert_ne in Hn by done. by exists m, n, e'.
  - intros (m' & n & e' & Hm' & Hn & Hp). rewrite Hm in Hm'.
    injection Hm' as <-. exists (<[name := e]> m), n, e'.
    split; [done |]. split; [| done].
    rewrite lookup_insert_ne; [done |]. intros ->. congruence.
Qed.

Lemma port_scan_skips_entries_without_port_witness :
  get_next_port
    (Some {| doc_other := doc_other sample_doc;
             doc_instances :=
               Some (<["draft" := draft_entry]>
                       (default ∅ (doc_instances sample_doc))) |})
  = get_next_port (Some sample_doc).
Proof.
  refine (proj1 (port_scan_skips_entries_without_port sample_doc
                   (default ∅ (doc_instances sample_doc)) "draft" draft_entry
                   _ _ _ _)).
  - reflexivity.
  - vm_compute. reflexivity.
  - reflexivity.
  - replace (assigned_ports sample_doc) with [8004; 8001]
      by (vm_compute; reflexivity).
    repeat constructor.
Defined.

(** ** Removal *)

Lemma remove_instance_run env name st d c :
  instance_dirs st !! name = Some d → compose_file d = Some c →
  confirm env = "yes" →
  remove_instance env name st
  = (0, set_config (remove_instance_from_config name (workspace_config st)).2
          (set_dirs (delete name (instance_dirs st))
             (docker_stop (compose_containers c) st))).
Proof.
  intros Hd Hc Hyes. unfold remove_instance. rewrite Hd, Hc.
  case_decide; [| done]. simpl. by destruct (workspace_config st).
Qed.

(** X3.  A confirmed remove of an instance that has its compose file
    exits 0, deletes the directory and the config entry of that name
    and of no other, stops the instance's containers and no other, and
    frees the name; the instance's network and its host log directory
    are left in place. *)
Theorem remove_releases_the_name (env : Env) (name : string) (st : State)
    (d : InstanceDir) (c : Compose)
    (Hd : instance_dirs st !! name = Some d)
    (Hc : compose_file d = Some c)
    (Hyes : confirm env = "yes") :
  let r := remove_instance env name st in
  r.1 = 0
  ∧ instance_dirs r.2 = delete name (instance_dirs st)
  ∧ entry_of r.2 name = None
  ∧ (∀ n, n ≠ name → entry_of r.2 n = entry_of st n)
  ∧ (∀ x, x ∈ running r.2 ↔ x ∈ running st ∧ x ∉ compose_containers c)
  ∧ networks r.2 = networks st
  ∧ host_logs r.2 = host_logs st
  ∧ (name ≠ "" → dir_exists r.2 name = false).
Proof.
  cbv zeta. rewrite (remove_instance_run env name st d c Hd Hc Hyes). simpl.
  split; [done |]. split; [done |]. split.
  { unfold entry_of. simpl. destruct (workspace_config st) as [doc|]; [| done].
    simpl. destruct (doc_instances doc); [| done]. simpl.
    by rewrite lookup_delete_eq. }
  split.
  { intros n Hn. unfold entry_of. simpl.
    destruct (workspace_config st) as [doc|]; [| done].
    simpl. destruct (doc_instances doc); [| done]. simpl.
    by rewrite lookup_delete_ne. }
  split; [intros x; apply list_elem_of_difference |].
  split; [done |]. split; [done |].
  intros Hne. unfold dir_exists. simpl. rewrite lookup_delete_eq.
  rewrite bool_decide_eq_false_2 by done.
  rewrite bool_decide_eq_false_2; [done |]. by intros [? ?].
Qed.

Lemma remove_releases_the_name_witness :
  let r := remove_instance sample_env "alpha" two_instances in
  r.1 = 0 ∧ entry_of r.2 "alpha" = None
  ∧ networks r.2 = networks two_instances.
Proof.
  cbv zeta.
  assert (Hd : ∃ d c, instance_dirs two_instances !! "alpha" = Some d
                      ∧ compose_file d = Some c).
  { eexists _, _. split; [vm_compute; reflexivity | reflexivity]. }
  destruct Hd as (d & c & Hd & Hc).
  destruct (remove_releases_the_name sample_env "alpha" _ d c Hd Hc eq_refl)
    as (H0 & _ & H1 & _ & _ & H2 & _).
  by repeat split.
Defined.

(** X4.  The prompt is a guard.  For a plain instance name and an
    answer that [read] stores as it was typed, any answer other than
    [yes] ends the command with status 0 and the state untouched, and
    the name of a directory that does not exist ends it with status 1
    before the prompt, the state untouched as well. *)
Theorem remove_needs_the_answer_yes (env : Env) (name : string) (st : State)
    (Hname : plain_name name = true)
    (Hanswer : plain_answer (confirm env) = true)
    (Hstate : well_formed st = true)
    (Hguard : instance_dirs st !! name = None ∨ confirm env ≠ "yes") :
  remove_instance env name st
  = (if decide (is_Some (instance_dirs st !! name)) then 0 else 1, st).
Proof.
  unfold remove_instance.
  destruct (instance_dirs st !! name) as [d|] eqn:Hd.
  - destruct Hguard as [?|Hno]; [done |].
    destruct (decide (confirm env = "yes")); [done |].
    by destruct (decide (is_Some (Some d))) as [|[]].
  - rewrite decide_False; [done |]. by intros [? ?].
Qed.

Lemma remove_needs_the_answer_yes_witness :
  remove_instance hasty_env "alpha" two_instances = (0, two_instances)
  ∧ remove_instance sample_env "omega" two_instances = (1, two_instances).
Proof.
  assert (Hstate : well_formed two_instances = true) by (vm_compute; reflexivity).
  split.
  - rewrite remove_needs_the_answer_yes;
      [| reflexivity | reflexivity | exact Hstate | right; discriminate].
    rewrite decide_True; [reflexivity |].
    eexists. vm_compute. reflexivity.
  - rewrite remove_needs_the_answer_yes;
      [| reflexivity | reflexivity | exact Hstate | left; vm_compute; reflexivity].
    rewrite decide_False; [reflexivity |].
    intros [d Hd]. vm_compute in Hd. discriminate.
Defined.

(** X5.  Create followed by a confirmed remove of the same name puts
    the workspace config and the instance directories back exactly as
    they were (provided the config, if present, has an [.instances]
    object and no stale entry of that name); what stays behind is
    the network made for the instance and its host log directory. *)
Theorem create_then_remove_restores (env env' : Env) (name a2 a3 a4 : string)
    (st : State)
    (Hdir : dir_exists st name = false)
    (Hweb : valid_webserver (Shell.default_to (DEFAULT_WEBSERVER env) a4) = true)
    (Hengine : engine_accepts env st)
    (Hyes : confirm env' = "yes")
    (Hobj : ∀ doc, workspace_config st = Some doc → is_Some (doc_instances doc))
    (Hstale : entry_of st name = None) :
  let created := (create_instance env name a2 a3 a4 st).2 in
  let r := remove_instance env' name created in
  r.1 = 0
  ∧ workspace_config r.2 = workspace_config st
  ∧ instance_dirs r.2 = instance_dirs st
  ∧ next_network st ∈ networks r.2
  ∧ networks st ⊆ networks r.2
  ∧ name ∈ host_logs r.2.
Proof.
  cbv zeta.
  destruct (create_instance_success env name a2 a3 a4 st Hdir Hweb Hengine)
    as (_ & Hsave & Hdirs & (Hsub & Hnet & _) & _).
  destruct (dir_exists_false _ _ Hdir) as [_ Hnone].
  assert (Hlogs : name ∈ host_logs (create_instance env name a2 a3 a4 st).2).
  { unfold create_instance. rewrite Hdir, Hweb. simpl.
    destruct (ensure_network _ _ _) as [nets1|]; simpl.
    - destruct (ensure_network _ _ _) as [nets2|]; simpl.
      + destruct (workspace_config st); simpl;
          apply elem_of_union_l; by apply elem_of_singleton.
      + apply elem_of_union_l. by apply elem_of_singleton.
    - apply elem_of_union_l. by apply elem_of_singleton. }
  set (created := (create_instance env name a2 a3 a4 st).2) in *.
  assert (Hlook : instance_dirs created !! name
                  = Some (created_dir env name a2 a3 a4 st))
    by by rewrite Hdirs, lookup_insert_eq.
  rewrite (remove_instance_run env' name created _ _ Hlook eq_refl Hyes).
  simpl. split; [done |]. split.
  { rewrite Hsave. destruct (workspace_config st) as [doc|] eqn:E; [| done].
    destruct (Hobj doc eq_refl) as [m Hm].
    assert (Hfree : m !! name = None).
    { unfold entry_of in Hstale. rewrite E in Hstale. simpl in Hstale.
      by rewrite Hm in Hstale. }
    simpl. rewrite Hm. simpl. rewrite delete_insert_eq, delete_id by done.
    destruct doc. simpl in *. by rewrite Hm. }
  split; [by rewrite Hdirs, delete_insert_eq, delete_id |].
  by repeat split.
Qed.

Lemma create_then_remove_restores_witness :
  let created := (create_instance hasty_env "delta" "57" "74" "apache"
                    two_instances).2 in
  let r := remove_instance sample_env "delta" created in
  workspace_config r.2 = workspace_config two_instances
  ∧ instance_dirs r.2 = instance_dirs two_instances
  ∧ next_network two_instances ∈ networks r.2.
Proof.
  cbv zeta.
  destruct (create_then_remove_restores hasty_env sample_env "delta" "57" "74"
              "apache" two_instances) as (_ & H1 & H2 & H3 & _).
  - vm_compute. reflexivity.
  - reflexivity.
  - split; right; reflexivity.
  - reflexivity.
  - intros doc Hdoc.
    assert (H : is_Some (workspace_config two_instances ≫= doc_instances))
      by (eexists; vm_compute; reflexivity).
    rewrite Hdoc in H. exact H.
  - vm_compute. reflexivity.
  - by repeat split.
Defined.

(** ** What no command undoes *)

Lemma create_instance_grows env name a2 a3 a4 st :
  networks st ⊆ networks (create_instance env name a2 a3 a4 st).2
  ∧ host_logs st ⊆ host_logs (create_instance env name a2 a3 a4 st).2.
Proof.
  unfold create_instance.
  destruct (dir_exists st name); [done |].
  destruct (negb _); [done |]. simpl.
  destruct (ensure_network _ _ (networks st)) as [nets1|] eqn:E1; simpl;
    [| split; [done | apply union_subseteq_r]].
  apply ensure_network_inv in E1 as [Hsub1 _].
  destruct (ensure_network _ _ nets1) as [nets2|] eqn:E2; simpl;
    [| split; [done | apply union_subseteq_r]].
  apply ensure_network_inv in E2 as [Hsub2 _].
  destruct (workspace_config st); simpl;
    (split; [by etrans | apply union_subseteq_r]).
Qed.

Lemma copy_database_keeps src tgt pw sd td st :
  networks (copy_database src tgt pw sd td st).2 = networks st
  ∧ host_logs (copy_database src tgt pw sd td st).2 = host_logs st.
Proof.
  unfold copy_database, mysqldump, mysql_import.
  destruct (compose_file sd); [| done].
  destruct (compose_file td); [| done]. simpl.
  destruct (instance_dirs st !! src) as [d|]; simpl; [| done].
  destruct (mysql_accepts d pw); simpl; [| done].
  destruct (instance_dirs st !! tgt) as [d'|]; simpl; [| done].
  by destruct (mysql_accepts d' pw).
Qed.

Lemma clone_instance_grows env src tgt a3 st :
  networks st ⊆ networks (clone_instance env src tgt a3 st).2
  ∧ host_logs st ⊆ host_logs (clone_instance env src tgt a3 st).2.
Proof.
  unfold clone_instance.
  destruct (instance_dirs st !! src) as [sd|]; [| done].
  destruct (instance_info sd) as [si|]; [| done].
  destruct (dir_exists st tgt); [done |].
  destruct (negb _); [done |].
  pose proof (create_instance_grows env tgt (MYSQL_VERSION si)
                (PHP_VERSION si) (WEBSERVER si) st) as Hc.
  destruct (create_instance _ _ _ _ _ _) as [code st1]. simpl in Hc.
  case_decide; [| done].
  destruct (instance_dirs st1 !! tgt) as [td|]; [| done].
  destruct (decide (Shell.default_to "symlink" a3 = "symlink")); [done |].
  destruct (decide (Shell.default_to "symlink" a3 = "copy-all")); [| done].
  match goal with
  | |- context [copy_database ?a ?b ?c ?d ?e ?f] =>
      pose proof (copy_database_keeps a b c d e f) as [Hn Hl];
      destruct (copy_database a b c d e f) as [code3 st3]
  end.
  simpl in Hn, Hl. case_decide; simpl; by rewrite Hn, Hl.
Qed.

Lemma remove_instance_grows env name st :
  networks (remove_instance env name st).2 = networks st
  ∧ host_logs (remove_instance env name st).2 = host_logs st.
Proof.
  unfold remove_instance.
  destruct (instance_dirs st !! name) as [d|]; [| done].
  destruct (decide (confirm env = "yes")); [| done].
  destruct (compose_file d); [| done].
  by destruct (workspace_config (set_dirs _ _)).
Qed.

Lemma main_grows env args st :
  networks st ⊆ networks (main env args st).2
  ∧ host_logs st ⊆ host_logs (main env args st).2.
Proof.
  unfold main, start_instance, stop_instance.
  repeat case_decide; simpl;
    auto using create_instance_grows, clone_instance_grows.
  - destruct (instance_dirs st !! _) as [d|]; [| done].
    by destruct (instance_info d), (compose_file d).
  - destruct (instance_dirs st !! _) as [d|]; [| done].
    by destruct (compose_file d).
  - by destruct (remove_instance_grows env (arg 1 args) st) as [-> ->].
Qed.

(** X6.  No command of the manager deletes a Docker network, and none
    given plain names deletes a host log directory: over any session
    the set of networks only grows, removals included, and so does the
    set of host log directories when the arguments are plain. *)
Theorem networks_and_host_logs_only_grow (cmds : list (Env * list string))
    (st : State) :
  networks st ⊆ networks (session cmds st)
  ∧ (well_formed st = true → plain_session cmds = true →
     host_logs st ⊆ host_logs (session cmds st)).
Proof.
  assert (H : networks st ⊆ networks (session cmds st)
              ∧ host_logs st ⊆ host_logs (session cmds st)); [| by destruct H].
  induction cmds as [|c cmds IH] using rev_ind; [done |].
  rewrite session_snoc. destruct IH as [IHn IHl].
  destruct (main_grows c.1 c.2 (session cmds st)) as [Hn Hl].
  split; by etrans.
Qed.

(** ** The registry over a session *)

Lemma entry_of_save st st' doc env name port web php mysql n :
  workspace_config st = Some doc →
  workspace_config st'
  = (save_instance_to_config env name port web php mysql (Some doc)).2 →
  entry_of st' n
  = if decide (name = n) then Some (new_entry env port web php mysql)
    else entry_of st n.
Proof.
  intros Hdoc Hcfg. unfold entry_of. rewrite Hcfg, Hdoc. simpl.
  rewrite lookup_insert. case_decide; [done |].
  destruct (doc_instances doc); simpl; [done | by rewrite lookup_empty].
Qed.

Lemma entry_of_delete st st' doc name n :
  workspace_config st = Some doc →
  workspace_config st' = (remove_instance_from_config name (Some doc)).2 →
  entry_of st' n = if decide (name = n) then None else entry_of st n.
Proof.
  intros Hdoc Hcfg. unfold entry_of. rewrite Hcfg, Hdoc. simpl.
  destruct (doc_instances doc); simpl; [| by case_decide].
  rewrite lookup_delete. by case_decide.
Qed.

Lemma effect_registry b st st' :
  effect b st st' → is_Some (workspace_config st) →
  (∀ n, registry_consistent st n) →
  is_Some (workspace_config st') ∧ ∀ n, registry_consistent st' n.
Proof.
  intros He [doc Hdoc] Hreg.
  destruct He as [Hcfg Hinfo _|env name a2 a3 a4 Hnone Hcfg Hnew Hold _
                  |name _ Hcfg Hgone Hold].
  - split; [rewrite Hcfg, Hdoc; by eexists |].
    intros n. unfold registry_consistent, entry_of.
    rewrite Hcfg, Hinfo. apply Hreg.
  - rewrite Hdoc in Hcfg.
    split; [rewrite Hcfg; by eexists |].
    intros n. unfold registry_consistent.
    rewrite (entry_of_save st st' doc _ _ _ _ _ _ n Hdoc Hcfg).
    case_decide as Hn.
    + subst n. rewrite Hnew. split; [split; by eexists |].
      intros i [= <-]. split; [done |]. simpl.
      unfold created_info. simpl. by rewrite Hdoc.
    + rewrite Hold by done. apply Hreg.
  - rewrite Hdoc in Hcfg.
    split; [rewrite Hcfg; by destruct (doc_instances doc); eexists |].
    intros n. unfold registry_consistent.
    rewrite (entry_of_delete st st' doc _ n Hdoc Hcfg).
    case_decide as Hn.
    + subst n. rewrite Hgone. split; [split; by intros [? ?] | done].
    + rewrite Hold by done. apply Hreg.
Qed.

(** X7.  In a workspace built up from an empty one by commands with
    plain arguments the metadata files and the workspace config never
    drift apart, whatever commands run and however they end: an
    instance has a [.instance-info] exactly when the config lists it,
    the file carries the name of its directory, and both give the same
    port. *)
Theorem registry_stays_consistent (other : string)
    (cmds : list (Env * list string)) (n : string)
    (Hplain : plain_session cmds = true) :
  registry_consistent (session cmds (empty_workspace other)) n.
Proof.
  assert (H : is_Some (workspace_config (session cmds (empty_workspace other)))
              ∧ ∀ n, registry_consistent (session cmds (empty_workspace other)) n);
    [| apply H].
  clear Hplain. induction cmds as [|c cmds IH] using rev_ind.
  - split; [by eexists |]. intros k. unfold registry_consistent, info_of, entry_of.
    simpl. rewrite !lookup_empty. simpl.
    split; [split; by intros [? ?] | done].
  - rewrite session_snoc. destruct IH as [Hs Hr].
    eapply effect_registry; [apply main_effect | done | done].
Qed.

(** ** Status through the life of an instance *)

Lemma show_info_created env name a2 a3 a4 st st' :
  instance_dirs st' !! name = Some (created_dir env name a2 a3 a4 st) →
  show_info name st'
  = (0, Some (created_info env name a2 a3 a4 st, is_running name (running st'))).
Proof. intros Hd. unfold show_info. by rewrite Hd. Qed.

Lemma plain_name_no_dot name :
  plain_name name = true → String.prefix "." name = false.
Proof.
  intros Hn. unfold plain_name in Hn. apply andb_true_iff in Hn as [_ Hn].
  destruct name as [|c rest]; [done |].
  simpl in Hn. apply andb_true_iff in Hn as [Hc _].
  change (String.prefix "." (String c rest))
    with (if Ascii.ascii_dec (Ascii.ascii_of_nat 46) c
          then String.prefix "" rest else false).
  destruct (Ascii.ascii_dec _ c) as [<-|]; [by vm_compute in Hc | done].
Qed.

(** X8.  An instance with a plain name is created stopped, [start]
    makes [info] and [list] report it running, and [stop] takes exactly
    its three containers [name-mysql], [name-php], [name-<webserver>]
    out of the running ones again, so that the status falls back to
    what foreign containers with the prefix [name-] make of it. *)
Theorem start_and_stop_show_in_status (env : Env) (name a2 a3 a4 : string)
    (st : State)
    (Hname : plain_name name = true)
    (Hstate : well_formed st = true)
    (Hinfo : sourceable (created_info env name a2 a3 a4 st) = true)
    (Hdir : dir_exists st name = false)
    (Hweb : valid_webserver (Shell.default_to (DEFAULT_WEBSERVER env) a4) = true)
    (Hengine : engine_accepts env st) :
  let i := created_info env name a2 a3 a4 st in
  let own := [name +:+ "-mysql"; name +:+ "-php";
              name +:+ "-" +:+ Shell.default_to (DEFAULT_WEBSERVER env) a4] in
  let created := (create_instance env name a2 a3 a4 st).2 in
  let started := start_instance name created in
  let stopped := stop_instance name started.2 in
  show_info name created = (0, Some (i, is_running name (running st)))
  ∧ started.1 = 0
  ∧ (∀ x, x ∈ running started.2 ↔ x ∈ running st ∨ x ∈ own)
  ∧ show_info name started.2 = (0, Some (i, true))
  ∧ (∃ row, row ∈ list_instances started.2 ∧ row_name row = name
            ∧ row_status row = "running")
  ∧ (∀ row, row ∈ list_instances started.2 → row_name row = name →
       row_status row = "running")
  ∧ stopped.1 = 0
  ∧ (∀ x, x ∈ running stopped.2 ↔ x ∈ running st ∧ x ∉ own)
  ∧ (is_running name (running st) = false →
     show_info name stopped.2 = (0, Some (i, false))
     ∧ ∃ row, row ∈ list_instances stopped.2 ∧ row_name row = name
              ∧ row_status row = "stopped").
Proof.
  cbv zeta.
  destruct (create_instance_success env name a2 a3 a4 st Hdir Hweb Hengine)
    as (_ & _ & Hdirs & _ & Hrun & _).
  set (created := (create_instance env name a2 a3 a4 st).2) in *.
  assert (Hlook : instance_dirs created !! name
                  = Some (created_dir env name a2 a3 a4 st))
    by by rewrite Hdirs, lookup_insert_eq.
  set (own := [name +:+ "-mysql"; name +:+ "-php";
               name +:+ "-" +:+ Shell.default_to (DEFAULT_WEBSERVER env) a4]).
  assert (Hstart : start_instance name created = (0, docker_start own created)).
  { unfold start_instance. by rewrite Hlook. }
  rewrite Hstart. simpl fst. simpl snd.
  assert (Hstop : stop_instance name (docker_start own created)
                  = (0, docker_stop own (docker_start own created))).
  { unfold stop_instance. simpl. by rewrite Hlook. }
  rewrite Hstop. simpl fst. simpl snd.
  assert (Hstarted : ∀ x, x ∈ running (docker_start own created)
                          ↔ x ∈ running st ∨ x ∈ own).
  { intros x. simpl. rewrite list_elem_of_union. by rewrite Hrun. }
  assert (Hup : is_running name (running (docker_start own created)) = true).
  { apply is_running_spec. exists "mysql". apply Hstarted. right.
    apply list_elem_of_here. }
  assert (Hrow : ∀ s, instance_dirs s = instance_dirs created →
            ∃ row, row ∈ list_instances s ∧ row_name row = name
                   ∧ row_status row = status_of name s).
  { intros s Hs.
    apply (list_instances_has_row s name (created_dir env name a2 a3 a4 st)
             (created_info env name a2 a3 a4 st));
      [by rewrite Hs | done | by apply plain_name_no_dot]. }
  split; [rewrite (show_info_created env name a2 a3 a4 st) by done;
          by rewrite Hrun |].
  split; [done |]. split; [done |].
  split; [rewrite (show_info_created env name a2 a3 a4 st) by done;
          by rewrite Hup |].
  split.
  { destruct (Hrow (docker_start own created) eq_refl) as (row & Hin & Hrn & Hrs).
    exists row. unfold status_of in Hrs. rewrite Hup in Hrs. by repeat split. }
  split.
  { intros row [Hst _]%list_instances_row Hrn.
    rewrite Hst, Hrn. unfold status_of. by rewrite Hup. }
  split; [done |].
  assert (Hstopped : ∀ x, x ∈ running (docker_stop own (docker_start own created))
                          ↔ x ∈ running st ∧ x ∉ own).
  { intros x. simpl. rewrite list_elem_of_difference, list_elem_of_union, Hrun.
    tauto. }
  split; [done |].
  intros Hfree.
  assert (Hdown : is_running name
                    (running (docker_stop own (docker_start own created))) = false).
  { destruct (is_running name
                (running (docker_stop own (docker_start own created))))
      eqn:E; [| done].
    apply is_running_spec in E as [rest Hin]. apply Hstopped in Hin as [Hin _].
    assert (is_running name (running st) = true); [| congruence].
    apply is_running_spec. by exists rest. }
  split.
  - rewrite (show_info_created env name a2 a3 a4 st) by done. by rewrite Hdown.
  - destruct (Hrow (docker_stop own (docker_start own created)) eq_refl)
      as (row & Hin & Hrn & Hrs).
    exists row. unfold status_of in Hrs. rewrite Hdown in Hrs. by repeat split.
Qed.

Lemma start_and_stop_show_in_status_witness :
  let created := (create_instance sample_env "shop" "80" "83" "nginx"
                    (empty_workspace "")).2 in
  let started := start_instance "shop" created in
  snd <$> (show_info "shop" created).2 = Some false
  ∧ snd <$> (show_info "shop" started.2).2 = Some true
  ∧ (∃ row, row ∈ list_instances started.2 ∧ row_name row = "shop"
            ∧ row_status row = "running")
  ∧ snd <$> (show_info "shop" (stop_instance "shop" started.2).2).2 = Some false.
Proof.
  cbv zeta.
  destruct (start_and_stop_show_in_status sample_env "shop" "80" "83" "nginx"
              (empty_workspace ""))
    as (H1 & _ & _ & H2 & H3 & _ & _ & _ & H4).
  - reflexivity.
  - reflexivity.
  - vm_compute. reflexivity.
  - reflexivity.
  - reflexivity.
  - split; right; reflexivity.
  - destruct (H4 eq_refl) as [H5 _].
    rewrite H1, H2, H5. split; [reflexivity |]. split; [reflexivity |].
    split; [exact H3 | reflexivity].
Defined.

(** ** The version tables *)

(** X9.  For every version code, listed or not, the major.minor that
    names the config and log directories and goes into the workspace
    config is the major.minor of the image version that is pulled; a
    code outside the table selects the newest version (MySQL 8.0.40,
    PHP 8.3.14), and any webserver other than nginx gets the Apache
    version. *)
Theorem version_tables_agree (v : string) :
  String.prefix (mysql_full_version v +:+ ".") (mysql_image_version v) = true
  ∧ String.prefix (php_full_version v +:+ ".") (php_image_version v) = true
  ∧ (v ∉ ["56"; "57"; "80"] →
     mysql_image_version v = "8.0.40" ∧ mysql_full_version v = "8.0")
  ∧ (v ∉ ["74"; "80"; "81"; "82"; "83"] →
     php_image_version v = "8.3.14" ∧ php_full_version v = "8.3")
  ∧ (v ≠ "nginx" → webserver_version v = "2.4.62").
Proof.
  unfold mysql_full_version, mysql_image_version, php_full_version,
    php_image_version, webserver_version.
  split; [by repeat case_decide |]. split; [by repeat case_decide |].
  split; [| split].
  - intros Hv. repeat case_decide; try done; subst; exfalso; apply Hv;
      repeat first [apply list_elem_of_here | apply list_elem_of_further].
  - intros Hv. repeat case_decide; try done; subst; exfalso; apply Hv;
      repeat first [apply list_elem_of_here | apply list_elem_of_further].
  - intros Hv. by case_decide.
Qed.

(** ** What create writes *)

(** X10.  The three records a completed create writes agree with each
    other: the compose file publishes the port of the metadata file,
    which is the port of the config entry; the services join the
    network named in the metadata, which exists in the engine together
    with [wp-shared]; MySQL is set up with the passwords the metadata
    reports; the config entry carries the major.minor versions.  The
    new instance has no WordPress file and no database row, and no
    container of it runs. *)
Theorem created_records_agree (env : Env) (name a2 a3 a4 : string) (st : State)
    (Hdir : dir_exists st name = false)
    (Hweb : valid_webserver (Shell.default_to (DEFAULT_WEBSERVER env) a4) = true)
    (Hengine : engine_accepts env st) :
  let st' := (create_instance env name a2 a3 a4 st).2 in
  ∃ d c i,
    instance_dirs st' !! name = Some d
    ∧ compose_file d = Some c ∧ instance_info d = Some i
    ∧ published_port c = PORT i
    ∧ (∀ e, entry_of st' name = Some e →
         entry_port e = Some (PORT i)
         ∧ stack_webserver (entry_stack e) = WEBSERVER i
         ∧ stack_phpVersion (entry_stack e) = php_full_version (PHP_VERSION i)
         ∧ stack_mysqlVersion (entry_stack e) = mysql_full_version (MYSQL_VERSION i)
         ∧ entry_status e = "created")
    ∧ (is_Some (workspace_config st) → is_Some (entry_of st' name))
    ∧ instance_network c = NETWORK i
    ∧ NETWORK i ∈ networks st' ∧ "wp-shared" ∈ networks st'
    ∧ MYSQL_PASSWORD c = DB_PASSWORD i
    ∧ MYSQL_ROOT_PASSWORD c = DB_ROOT_PASSWORD i
    ∧ compose_containers c
      = [NAME i +:+ "-mysql"; NAME i +:+ "-php";
         NAME i +:+ "-" +:+ WEBSERVER i]
    ∧ data_wordpress d = Files ∅ ∧ data_mysql d = []
    ∧ running st' = running st.
Proof.
  cbv zeta.
  destruct (create_instance_success env name a2 a3 a4 st Hdir Hweb Hengine)
    as (_ & Hsave & Hdirs & (_ & Hnet & Hshared & _) & Hrun & _).
  exists (created_dir env name a2 a3 a4 st). eexists _, _.
  split; [by rewrite Hdirs, lookup_insert_eq |].
  split; [reflexivity |]. split; [reflexivity |].
  split; [done |]. split.
  { intros e He.
    assert (e = new_entry env (get_next_port (workspace_config st))
                  (Shell.default_to (DEFAULT_WEBSERVER env) a4)
                  (php_full_version (Shell.default_to (DEFAULT_PHP_VERSION env) a3))
                  (mysql_full_version (Shell.default_to (DEFAULT_MYSQL_VERSION env) a2)))
      as ->; [| done].
    unfold entry_of in He. rewrite Hsave in He.
    destruct (workspace_config st) as [doc|]; [| done]. simpl in He.
    rewrite lookup_insert_eq in He. by injection He. }
  split.
  { intros [doc Hdoc]. unfold entry_of. rewrite Hsave, Hdoc. simpl.
    rewrite lookup_insert_eq. by eexists. }
  by repeat split.
Qed.

Lemma created_records_agree_witness :
  let st' := (create_instance hasty_env "delta" "57" "74" "apache"
                two_instances).2 in
  ∃ d c i,
    instance_dirs st' !! "delta" = Some d
    ∧ compose_file d = Some c ∧ instance_info d = Some i
    ∧ published_port c = PORT i.
Proof.
  cbv zeta.
  destruct (created_records_agree hasty_env "delta" "57" "74" "apache"
              two_instances) as (d & c & i & H1 & H2 & H3 & H4 & _).
  - vm_compute. reflexivity.
  - reflexivity.
  - split; right; reflexivity.
  - exists d, c, i. split; [exact H1 |]. split; [exact H2 |].
    split; [exact H3 | exact H4].
Defined.

(** ** Clone: rejections and reach *)

(** X11.  Clone validates before it acts: a source without directory
    or without metadata file, a target whose directory exists (or an
    omitted target) and a strategy other than symlink, copy-all and
    copy-files each end the command with status 1 and the state
    untouched; an omitted strategy means symlink. *)
Theorem clone_rejects_without_side_effects (env : Env)
    (src tgt a3 : string) (st : State)
    (Hbad : info_of st src = None
            ∨ dir_exists st tgt = true
            ∨ valid_strategy (Shell.default_to "symlink" a3) = false) :
  clone_instance env src tgt a3 st = (1, st)
  ∧ clone_instance env src tgt "" st = clone_instance env src tgt "symlink" st.
Proof.
  split; [| done]. unfold clone_instance. unfold info_of in Hbad.
  destruct (instance_dirs st !! src) as [sd|]; [| done]. simpl in Hbad.
  destruct (instance_info sd) as [si|]; [| done].
  destruct Hbad as [?|[Ht|Hs]]; [done | by rewrite Ht |].
  rewrite Hs. by destruct (dir_exists st tgt).
Qed.

Lemma clone_rejects_without_side_effects_witness :
  clone_instance sample_env "alpha" "beta" "symlink" two_instances
  = (1, two_instances)
  ∧ clone_instance sample_env "alpha" "gamma" "hardlink" two_instances
    = (1, two_instances)
  ∧ clone_instance sample_env "omega" "gamma" "symlink" two_instances
    = (1, two_instances).
Proof.
  split; [| split].
  - apply (clone_rejects_without_side_effects sample_env "alpha" "beta"
             "symlink" two_instances).
    right. left. vm_compute. reflexivity.
  - apply (clone_rejects_without_side_effects sample_env "alpha" "gamma"
             "hardlink" two_instances).
    right. right. reflexivity.
  - apply (clone_rejects_without_side_effects sample_env "omega" "gamma"
             "symlink" two_instances).
    left. vm_compute. reflexivity.
Defined.

Lemma create_instance_others env name a2 a3 a4 st n :
  n ≠ name →
  instance_dirs (create_instance env name a2 a3 a4 st).2 !! n
  = instance_dirs st !! n.
Proof.
  intros Hn. unfold create_instance.
  destruct (dir_exists st name); [done |].
  destruct (negb _); [done |]. simpl.
  destruct (ensure_network _ _ _) as [nets1|]; simpl;
    [| by rewrite lookup_insert_ne].
  destruct (ensure_network _ _ _) as [nets2|]; simpl;
    [| by rewrite lookup_insert_ne].
  destruct (workspace_config st); simpl;
    by rewrite !lookup_insert_ne.
Qed.

Lemma copy_database_others src tgt pw sd td st n :
  n ≠ tgt →
  instance_dirs (copy_database src tgt pw sd td st).2 !! n
  = instance_dirs st !! n.
Proof.
  intros Hn. unfold copy_database, mysqldump, mysql_import.
  destruct (compose_file sd); [| done].
  destruct (compose_file td); [| done]. simpl.
  destruct (instance_dirs st !! src) as [d|]; simpl; [| done].
  destruct (mysql_accepts d pw); simpl; [| done].
  destruct (instance_dirs st !! tgt) as [d'|]; simpl; [| done].
  destruct (mysql_accepts d' pw); simpl; [| done].
  by rewrite lookup_insert_ne.
Qed.

Lemma clone_instance_others env src tgt a3 st n :
  n ≠ tgt →
  instance_dirs (clone_instance env src tgt a3 st).2 !! n
  = instance_dirs st !! n.
Proof.
  intros Hn. unfold clone_instance.
  destruct (instance_dirs st !! src) as [sd|]; [| done].
  destruct (instance_info sd) as [si|]; [| done].
  destruct (dir_exists st tgt); [done |].
  destruct (negb _); [done |].
  pose proof (create_instance_others env tgt (MYSQL_VERSION si)
                (PHP_VERSION si) (WEBSERVER si) st n Hn) as Hc.
  destruct (create_instance _ _ _ _ _ _) as [code st1]. simpl in Hc.
  case_decide; [| done].
  destruct (instance_dirs st1 !! tgt) as [td|]; [| done].
  destruct (decide (Shell.default_to "symlink" a3 = "symlink"));
    [simpl; by rewrite lookup_insert_ne |].
  destruct (decide (Shell.default_to "symlink" a3 = "copy-all"));
    [| simpl; by rewrite lookup_insert_ne].
  match goal with
  | |- context [copy_database ?a ?b ?c ?d ?e ?f] =>
      pose proof (copy_database_others a b c d e f n Hn) as Hdb;
      destruct (copy_database a b c d e f) as [code3 st3]
  end.
  simpl in Hdb. case_decide; simpl; rewrite Hdb; simpl;
    by rewrite lookup_insert_ne.
Qed.

(** X12.  For plain source and target names, whatever the strategy and
    however the command ends, clone writes to no instance directory but
    the target's: the files, the database and the metadata of the
    source and of every other instance are what they were, a symlink
    clone included. *)
Theorem clone_writes_the_target_only (env : Env) (src tgt a3 : string)
    (st : State) (n : string)
    (Hsrc : plain_name src = true)
    (Htgt : plain_name tgt = true)
    (Hstate : well_formed st = true)
    (Hn : n ≠ tgt) :
  let st' := (clone_instance env src tgt a3 st).2 in
  instance_dirs st' !! n = instance_dirs st !! n
  ∧ info_of st' n = info_of st n.
Proof.
  cbv zeta.
  pose proof (clone_instance_others env src tgt a3 st n Hn) as Hothers.
  split; [done |]. unfold info_of. by rewrite Hothers.
Qed.

Lemma clone_writes_the_target_only_witness :
  instance_dirs (clone_instance sample_env' "alpha" "beta" "copy-all"
                   installed).2 !! "alpha"
  = instance_dirs installed !! "alpha".
Proof.
  apply (clone_writes_the_target_only sample_env' "alpha" "beta" "copy-all"
           installed "alpha").
  - reflexivity.
  - reflexivity.
  - vm_compute. reflexivity.
  - discriminate.
Defined.

(** X13.  A symlink clone owns no files: its [data/wordpress] is a link
    into the source's directory, and [remove] does not look for clones,
    so a confirmed remove of the source goes through and leaves the
    clone with a link into a directory that is gone. *)
Theorem symlink_clone_dangles_after_source_removal (env env' : Env)
    (src tgt : string) (st st1 : State) (sd : InstanceDir) (c : Compose)
    (Hsd : instance_dirs st !! src = Some sd)
    (Hc : compose_file sd = Some c)
    (Hclone : clone_instance env src tgt "symlink" st = (0, st1))
    (Hyes : confirm env' = "yes") :
  data_wordpress <$> instance_dirs st1 !! tgt = Some (Symlink src)
  ∧ instance_dirs st1 !! src = Some sd
  ∧ let r := remove_instance env' src st1 in
    r.1 = 0
    ∧ instance_dirs r.2 !! src = None
    ∧ data_wordpress <$> instance_dirs r.2 !! tgt = Some (Symlink src).
Proof.
  apply clone_instance_inv in Hclone
    as (sd' & si & td' & Hs' & _ & Hne & _ & _ & _ & _ & Hdirs & _ & _ & Hwp & _).
  simpl in Hwp.
  assert (Htgt : data_wordpress <$> instance_dirs st1 !! tgt = Some (Symlink src))
    by (by rewrite Hdirs, lookup_insert_eq; simpl; rewrite Hwp).
  assert (Hsrc : instance_dirs st1 !! src = Some sd)
    by (by rewrite Hdirs, lookup_insert_ne).
  split; [done |]. split; [done |]. cbv zeta.
  rewrite (remove_instance_run env' src st1 sd c Hsrc Hc Hyes). simpl.
  split; [done |]. split; [by rewrite lookup_delete_eq |].
  rewrite lookup_delete_ne by done. exact Htgt.
Qed.

Lemma symlink_clone_dangles_after_source_removal_witness :
  let st1 := (clone_instance sample_env' "alpha" "beta" "symlink" installed).2 in
  let r := remove_instance sample_env "alpha" st1 in
  instance_dirs r.2 !! "alpha" = None
  ∧ data_wordpress <$> instance_dirs r.2 !! "beta" = Some (Symlink "alpha").
Proof.
  cbv zeta.
  set (run := clone_instance sample_env' "alpha" "beta" "symlink" installed).
  assert (Hrun : run = (0, run.2)).
  { assert (H1 : run.1 = 0) by (vm_compute; reflexivity).
    destruct run as [code s]. simpl in H1. by subst code. }
  assert (Hsd : ∃ sd c, instance_dirs installed !! "alpha" = Some sd
                        ∧ compose_file sd = Some c).
  { eexists _, _. split; [vm_compute; reflexivity | reflexivity]. }
  destruct Hsd as (sd & c & Hsd & Hc).
  destruct (symlink_clone_dangles_after_source_removal sample_env' sample_env
              "alpha" "beta" installed run.2 sd c Hsd Hc Hrun eq_refl)
    as (_ & _ & _ & H1 & H2).
  split; [exact H1 | exact H2].
Defined.

(** ** The command line *)

Lemma main_unknown env word args st :
  word ∉ ["create"; "start"; "stop"; "remove"; "list"; "info"; "clone"; "logs"] →
  main env (word :: args) st = (1, st).
Proof.
  intros Hw. unfold main. change (arg 0 (word :: args)) with word.
  repeat case_decide; try done; subst; exfalso; apply Hw;
    repeat first [apply list_elem_of_here | apply list_elem_of_further].
Qed.

Ltac run_differs :=
  let H := fresh in
  intros H; apply (f_equal fst) in H; vm_compute in H; discriminate.

(** X14.  [wp-dind instance] hands an action over to the manager
    exactly when it is a command of the manager other than [clone]:
    the manager dispatches [clone], but the command line refuses it
    before anything runs. *)
Theorem cli_forwards_all_but_clone (action : string) (args : list string) :
  (Cli.instance_command action args ≠ Cli.Rejected
   ↔ dispatched action ∧ action ≠ "clone")
  ∧ dispatched "clone"
  ∧ Cli.instance_command "clone" args = Cli.Rejected.
Proof.
  split; [| split; [| done]].
  - unfold Cli.instance_command. case_bool_decide as Hv.
    + split; [intros _ | done]. unfold Cli.validActions in Hv.
      repeat (apply elem_of_cons in Hv as [->|Hv]);
        [..| by apply elem_of_nil in Hv]; (split; [| done]).
      * exists sample_env, ["alpha"], (empty_workspace ""). run_differs.
      * exists sample_env, ["alpha"], two_instances. run_differs.
      * exists sample_env, ["alpha"], two_instances. run_differs.
      * exists sample_env, ["alpha"], two_instances. run_differs.
      * exists sample_env, [], two_instances. run_differs.
      * exists sample_env, ["alpha"], two_instances. run_differs.
      * exists sample_env, ["alpha"], two_instances. run_differs.
    + split; [done |]. intros [(env & args' & st & Hrun) Hclone].
      exfalso. apply Hrun. apply main_unknown.
      intros Hin. apply Hv. unfold Cli.validActions.
      repeat (apply elem_of_cons in Hin as [->|Hin]);
        [..| by apply elem_of_nil in Hin]; try done;
        repeat first [apply list_elem_of_here | apply list_elem_of_further].
  - exists sample_env', ["alpha"; "gamma"; "symlink"], two_instances.
    run_differs.
Qed.

(** X15.  The version defaults taken from the environment
    ([DEFAULT_MYSQL_VERSION], [DEFAULT_PHP_VERSION], [DEFAULT_WEBSERVER])
    never reach a create issued on the command line: the dispatcher has
    filled in 80, 83 and nginx before [create_instance] looks at them,
    so [create name] is [create name 80 83 nginx] under any setting. *)
Theorem create_defaults_are_fixed (env : Env) (mysql php web : string)
    (name : string) (rest : list string) (st : State) :
  main (with_defaults mysql php web env) ("create" :: name :: rest) st
  = main env ("create" :: name :: rest) st
  ∧ main env ["create"; name] st
    = main env ["create"; name; "80"; "83"; "nginx"] st.
Proof.
  split; [| done].
  unfold main. change (arg 0 ("create" :: name :: rest)) with "create".
  rewrite decide_True by done.
  change (arg 1 ("create" :: name :: rest)) with name.
  case_decide; [done |].
  unfold create_instance.
  rewrite !default_to_idem by done.
  reflexivity.
Qed.

(** ** Listing and immutability *)

Lemma effect_names b st st' :
  effect b st st' →
  (∀ k i, info_of st k = Some i → NAME i = k) →
  ∀ k i, info_of st' k = Some i → NAME i = k.
Proof.
  intros He Hnames k i Hi.
  destruct He as [_ Hinfo _|env name a2 a3 a4 _ _ Hnew Hold _|name _ _ Hgone Hold].
  - rewrite Hinfo in Hi. by apply Hnames.
  - destruct (decide (k = name)) as [->|Hne].
    + rewrite Hnew in Hi. by injection Hi as <-.
    + rewrite Hold in Hi by done. by apply Hnames.
  - destruct (decide (k = name)) as [->|Hne]; [by rewrite Hgone in Hi |].
    rewrite Hold in Hi by done. by apply Hnames.
Qed.

(** Every metadata file of a session names the directory it lies in. *)
Lemma session_names other cmds k i :
  info_of (session cmds (empty_workspace other)) k = Some i → NAME i = k.
Proof.
  revert k i. induction cmds as [|c cmds IH] using rev_ind; intros k i.
  - unfold info_of. simpl. by rewrite lookup_empty.
  - rewrite session_snoc. eapply effect_names; [apply main_effect | exact IH].
Qed.

Lemma remove_instance_keys env name st k :
  is_Some (instance_dirs (remove_instance env name st).2 !! k) →
  is_Some (instance_dirs st !! k).
Proof.
  unfold remove_instance.
  destruct (instance_dirs st !! name) as [d|]; [| done].
  destruct (decide (confirm env = "yes")); [| done].
  destruct (compose_file d); [| done].
  destruct (remove_instance_from_config _ _) as [code cfg]. simpl.
  intros [x Hx]. apply lookup_delete_Some in Hx as [_ Hx]. by eexists.
Qed.

Lemma clone_instance_no_target env src a3 st :
  (clone_instance env src "" a3 st).2 = st.
Proof.
  unfold clone_instance.
  destruct (instance_dirs st !! src) as [sd|]; [| done].
  by destruct (instance_info sd).
Qed.

(** A directory a command leaves behind was there before or carries
    the name given as an argument. *)
Lemma main_new_key env args st k :
  is_Some (instance_dirs (main env args st).2 !! k) →
  is_Some (instance_dirs st !! k) ∨ (k ≠ "" ∧ ∃ n, k = arg n args).
Proof.
  unfold main.
  destruct (decide (arg 0 args = "create")).
  { destruct (decide (arg 1 args = "")) as [|Hne]; [by left |]. intros Hk.
    destruct (decide (k = arg 1 args)) as [->|Hk'];
      [right; split; [done | by exists 1%nat] |].
    left. by rewrite create_instance_others in Hk. }
  destruct (decide (arg 0 args = "start")).
  { destruct (decide (arg 1 args = "")); [by left |]. unfold start_instance.
    destruct (instance_dirs st !! arg 1 args) as [d|]; [| by left].
    destruct (instance_info d), (compose_file d); by left. }
  destruct (decide (arg 0 args = "stop")).
  { destruct (decide (arg 1 args = "")); [by left |]. unfold stop_instance.
    destruct (instance_dirs st !! arg 1 args) as [d|]; [| by left].
    destruct (compose_file d); by left. }
  destruct (decide (arg 0 args = "remove")).
  { destruct (decide (arg 1 args = "")); [by left |].
    intros Hk. left. by eapply remove_instance_keys. }
  destruct (decide (arg 0 args = "list")); [by left |].
  destruct (decide (arg 0 args = "info")).
  { destruct (decide (arg 1 args = "")); by left. }
  destruct (decide (arg 0 args = "clone")).
  { destruct (decide (arg 1 args = "")); [by left |]. intros Hk.
    destruct (decide (k = arg 2 args)) as [->|Hk'].
    - destruct (decide (arg 2 args = "")) as [He|He].
      + left. rewrite He in Hk |- *.
        by rewrite clone_instance_no_target in Hk.
      + right. split; [done | by exists 2%nat].
    - left. by rewrite clone_instance_others in Hk. }
  destruct (decide (arg 0 args = "logs")); [| by left].
  destruct (decide (arg 1 args = "")); [by left |].
  destruct (decide (is_Some (instance_dirs st !! arg 1 args))); by left.
Qed.

Lemma arg_plain n args :
  forallb plain_arg args = true → plain_arg (arg n args) = true.
Proof.
  intros Hall. unfold arg. destruct (args !! n) as [a|] eqn:Ha; [| done].
  simpl. rewrite forallb_forall in Hall. apply Hall.
  apply list_elem_of_In. by eapply list_elem_of_lookup_2.
Qed.

(** Every directory of a session with plain arguments has a plain
    name. *)
Lemma session_keys_plain other cmds k :
  plain_session cmds = true →
  is_Some (instance_dirs (session cmds (empty_workspace other)) !! k) →
  plain_name k = true.
Proof.
  revert k. induction cmds as [|c cmds IH] using rev_ind; intros k Hplain.
  - simpl. rewrite lookup_empty. by intros [? ?].
  - unfold plain_session in Hplain. rewrite forallb_app in Hplain.
    apply andb_true_iff in Hplain as [Hcmds Hc]. simpl in Hc.
    rewrite andb_true_r in Hc. rewrite session_snoc. intros Hk.
    apply main_new_key in Hk as [Hk|(Hne & n & ->)]; [by apply IH |].
    unfold plain_run in Hc. rewrite !andb_true_iff in Hc.
    destruct Hc as ((((Hargs & _) & _) & _) & _).
    pose proof (arg_plain n _ Hargs) as Hn. unfold plain_arg in Hn.
    apply orb_true_iff in Hn as [Hn|Hn]; [| done].
    by apply bool_decide_eq_true in Hn.
Qed.

(** X16.  In a workspace built up from an empty one by commands with
    plain arguments, [list] shows an instance exactly when it has its
    metadata file: every instance a create or clone completed has its
    row, and a directory left without [.instance-info] by a create that
    failed half-way has none. *)
Theorem list_shows_the_recorded_instances (other : string)
    (cmds : list (Env * list string)) (n : string)
    (Hplain : plain_session cmds = true) :
  let st := session cmds (empty_workspace other) in
  (∃ row, row ∈ list_instances st ∧ row_name row = n)
  ↔ is_Some (info_of st n).
Proof.
  cbv zeta. set (st := session cmds (empty_workspace other)).
  assert (Hname : ∀ k i, info_of st k = Some i → NAME i = k)
    by apply session_names.
  split.
  - intros (row & Hin & Hrow).
    apply list_instances_row in Hin as (_ & dir & d & i & Hd & Hi & Hrn).
    assert (Hinfo : info_of st dir = Some i) by (unfold info_of; by rewrite Hd).
    rewrite Hrow, (Hname dir i Hinfo) in Hrn. subst dir. by eexists.
  - intros [i Hi]. pose proof Hi as Hi'. unfold info_of in Hi'.
    destruct (instance_dirs st !! n) as [d|] eqn:Hd; [| done]. simpl in Hi'.
    assert (Hdot : String.prefix "." n = false).
    { apply plain_name_no_dot, (session_keys_plain other cmds); [done |].
      fold st. by rewrite Hd. }
    destruct (list_instances_has_row st n d i Hd Hi' Hdot)
      as (row & Hin & Hrn & _).
    exists row. split; [done |]. rewrite Hrn. by apply Hname.
Qed.

(** X17.  A metadata file is written once: every command with plain
    arguments leaves the [.instance-info] of an instance exactly as it
    is (port, network and passwords included), except that [remove] may
    delete it. *)
Theorem metadata_is_immutable (env : Env) (args : list string) (st : State)
    (n : string) (i : InstanceInfo)
    (Hplain : plain_run (env, args) = true)
    (Hstate : well_formed st = true)
    (Hi : info_of st n = Some i) :
  info_of (main env args st).2 n = Some i
  ∨ (info_of (main env args st).2 n = None ∧ arg 0 args = "remove").
Proof.
  destruct (main_effect env args st)
    as [_ Hinfo _|env0 name a2 a3 a4 Hnone _ _ Hold _|name Hrem _ Hgone Hold].
  - left. by rewrite Hinfo.
  - left. rewrite Hold; [done |]. intros ->.
    unfold info_of in Hi. by rewrite Hnone in Hi.
  - apply bool_decide_eq_true in Hrem.
    destruct (decide (n = name)) as [->|Hne]; [by right |].
    left. by rewrite Hold.
Qed.

Lemma metadata_is_immutable_witness :
  assigned_port
    (main sample_env' ["create"; "gamma"; "57"; "74"; "apache"] two_instances).2
    "alpha"
  = Some 8001.
Proof.
  assert (Hi : ∃ i, info_of two_instances "alpha" = Some i ∧ PORT i = 8001).
  { eexists. split; [vm_compute; reflexivity | reflexivity]. }
  destruct Hi as (i & Hi & Hp).
  assert (Hstate : well_formed two_instances = true) by (vm_compute; reflexivity).
  destruct (metadata_is_immutable sample_env'
              ["create"; "gamma"; "57"; "74"; "apache"] two_instances "alpha" i
              eq_refl Hstate Hi)
    as [H|[_ H]].
  - unfold assigned_port. rewrite H. simpl. by rewrite Hp.
  - discriminate H.
Defined.

(** ** Worked instances of the unconditional properties *)

Lemma networks_and_host_logs_only_grow_witness :
  "wp-network-2" ∈ networks (session [(sample_env, ["remove"; "alpha"])]
                               two_instances)
  ∧ "alpha" ∈ host_logs (session [(sample_env, ["remove"; "alpha"])]
                           two_instances).
Proof.
  destruct (networks_and_host_logs_only_grow
              [(sample_env, ["remove"; "alpha"])] two_instances) as [Hn Hl].
  split; [apply Hn | apply Hl; [vm_compute; reflexivity | reflexivity |]];
    compute_decide.
Defined.

Lemma registry_stays_consistent_witness :
  plain_session sample_cmds = true
  ∧ registry_consistent (session sample_cmds (empty_workspace "")) "beta".
Proof.
  assert (Hplain : plain_session sample_cmds = true) by (vm_compute; reflexivity).
  split; [exact Hplain |].
  exact (registry_stays_consistent "" sample_cmds "beta" Hplain).
Defined.

Lemma version_tables_agree_witness :
  mysql_image_version "90" = "8.0.40" ∧ mysql_full_version "90" = "8.0".
Proof.
  destruct (version_tables_agree "90") as (_ & _ & H & _).
  apply H. intros Hin.
  repeat (apply elem_of_cons in Hin as [Hin|Hin]; [discriminate Hin |]).
  by apply elem_of_nil in Hin.
Defined.

Lemma cli_forwards_all_but_clone_witness :
  Cli.instance_command "clone" ["alpha"; "gamma"] = Cli.Rejected
  ∧ Cli.instance_command "info" ["alpha"] ≠ Cli.Rejected.
Proof.
  split.
  - exact (proj2 (proj2 (cli_forwards_all_but_clone "clone" ["alpha"; "gamma"]))).
  - apply (proj1 (cli_forwards_all_but_clone "info" ["alpha"])).
    split; [| discriminate].
    exists sample_env, ["alpha"], two_instances.
    intros H. apply (f_equal fst) in H. vm_compute in H. discriminate.
Defined.

Lemma create_defaults_are_fixed_witness :
  main (with_defaults "57" "74" "apache" sample_env) ["create"; "delta"]
    two_instances
  = main sample_env ["create"; "delta"; "80"; "83"; "nginx"] two_instances.
Proof.
  destruct (create_defaults_are_fixed sample_env "57" "74" "apache" "delta" []
              two_instances) as [H1 H2].
  rewrite H1. exact H2.
Defined.

Lemma list_shows_the_recorded_instances_witness :
  let st := session sample_cmds (empty_workspace "") in
  (∃ row, row ∈ list_instances st ∧ row_name row = "gamma")
  ∧ ¬ ∃ row, row ∈ list_instances st ∧ row_name row = "alpha".
Proof.
  cbv zeta.
  assert (Hplain : plain_session sample_cmds = true) by (vm_compute; reflexivity).
  split.
  - apply (list_shows_the_recorded_instances "" sample_cmds "gamma" Hplain).
    eexists. vm_compute. reflexivity.
  - intros H.
    apply (list_shows_the_recorded_instances "" sample_cmds "alpha" Hplain) in H
      as [i Hi].
    vm_compute in Hi. discriminate.
Defined.
